(** * Gaming API: a shallow embedding of [main.py] and [schemas.py]

    The route handlers of the FastAPI application are embedded as functions
    in a state-and-exception monad over the process state (the module-level
    store handle [db], the process environment and the contents of the
    document store).  Python dictionaries are finite maps from strings to
    values; the identifiers of the store are 12-byte values rendered as 24
    hexadecimal digits; a Python string is the bytes of its UTF-8
    encoding. *)

From Stdlib Require Import ZArith NArith Ascii String List.
From stdpp Require Import gmap strings list pretty sorting.

Local Open Scope string_scope.

(** ** Python strings and bytes *)

(** A Python [str] is kept as the bytes of its UTF-8 encoding, a [bytes]
    object as its bytes.  In UTF-8 a character starts at every byte that is
    no continuation byte (a byte of the form 10xxxxxx). *)
Definition is_continuation (c : ascii) : bool :=
  (128 <=? N_of_ascii c)%N && (N_of_ascii c <? 192)%N.

(** [len(s)]: the number of characters. *)
Fixpoint py_len (s : string) : nat :=
  match s with
  | EmptyString => 0
  | String c s' => if is_continuation c then py_len s' else S (py_len s')
  end.

(** [s[:n]]: the first [n] characters, each with all of its bytes. *)
Fixpoint str_take (n : nat) (s : string) : string :=
  match s with
  | EmptyString => EmptyString
  | String c s' =>
      if is_continuation c then String c (str_take n s')
      else match n with
           | O => EmptyString
           | S n' => String c (str_take n' s')
           end
  end.

(** ** Values and documents *)

(** A native identifier of the store ([bson.ObjectId]), kept as its
    [binary]: the 12 bytes of a store-generated identifier, or the bytes that
    [bytes.fromhex] read from the string it was made of. *)
Record ObjectId := MkObjectId { binary : string }.

Global Instance ObjectId_eq_dec : EqDecision ObjectId.
Proof. solve_decision. Defined.

(** The values of the dictionaries this application builds and reads:
    [None], integers, strings, native identifiers, and the [Url] object that
    the validation library makes of an [HttpUrl] field. *)
Inductive value :=
  | VNone
  | VInt (z : Z)
  | VStr (s : string)
  | VOid (o : ObjectId)
  | VUrl (u : string).

Global Instance value_eq_dec : EqDecision value.
Proof. solve_decision. Defined.

(** A Python [dict] with string keys. *)
Abbreviation doc := (gmap string value).

(** [doc.get(k)]: the value under [k], or [None] when the key is absent. *)
Definition doc_get (d : doc) (k : string) : value := default VNone (d !! k).

(** ** Identifiers: bytes and hexadecimal digits *)

Definition hex_digit (n : N) : ascii :=
  match n with
  | 0 => "0" | 1 => "1" | 2 => "2" | 3 => "3" | 4 => "4" | 5 => "5"
  | 6 => "6" | 7 => "7" | 8 => "8" | 9 => "9" | 10 => "a" | 11 => "b"
  | 12 => "c" | 13 => "d" | 14 => "e" | _ => "f"
  end%N%char.

Definition hex_val (c : ascii) : option N :=
  let n := N_of_ascii c in
  if ((48 <=? n) && (n <=? 57))%N then Some (n - 48)%N
  else if ((97 <=? n) && (n <=? 102))%N then Some (n - 87)%N
  else if ((65 <=? n) && (n <=? 70))%N then Some (n - 55)%N
  else None.

(** ASCII whitespace: tab, line feed, vertical tab, form feed, carriage
    return and space. *)
Definition is_space (c : ascii) : bool :=
  ((9 <=? N_of_ascii c) && (N_of_ascii c <=? 13))%N || (N_of_ascii c =? 32)%N.

(** The [k] low bytes of [n], least significant first. *)
Fixpoint to_bytes_rev (k : nat) (n : N) : list ascii :=
  match k with
  | O => []
  | S k' => ascii_of_N (n mod 256) :: to_bytes_rev k' (n / 256)%N
  end.

(** [n.to_bytes(k, "big")] *)
Definition to_bytes (k : nat) (n : N) : string :=
  string_of_list_ascii (rev (to_bytes_rev k n)).

(** The number spelled by a list of bytes, least significant first. *)
Fixpoint of_bytes_rev (l : list ascii) : N :=
  match l with
  | [] => 0
  | c :: r => N_of_ascii c + 256 * of_bytes_rev r
  end%N.

(** The store-generated identifier number [n]: 12 bytes, big-endian. *)
Definition Oid (n : N) : ObjectId := MkObjectId (to_bytes 12 n).

(** [binascii.hexlify(b)]: two lower-case hexadecimal digits per byte. *)
Fixpoint hexlify (b : string) : string :=
  match b with
  | EmptyString => EmptyString
  | String c r =>
      String (hex_digit (N_of_ascii c / 16))
        (String (hex_digit (N_of_ascii c mod 16)) (hexlify r))
  end.

(** [bytes.fromhex(s)]: two adjacent hexadecimal digits per byte, ASCII
    whitespace skipped before each byte; [None] stands for [ValueError]. *)
Fixpoint fromhex (s : string) : option string :=
  match s with
  | EmptyString => Some EmptyString
  | String c r =>
      if is_space c then fromhex r
      else
        match hex_val c, r with
        | Some hi, String c2 r2 =>
            match hex_val c2 with
            | Some lo => String (ascii_of_N (hi * 16 + lo)) <$> fromhex r2
            | None => None
            end
        | _, _ => None
        end
  end.

(** [str(oid)]: the hexadecimal digits of the bytes, 24 of them for a
    12-byte identifier. *)
Definition ObjectId_str (o : ObjectId) : string := hexlify (binary o).

(** [ObjectId.is_valid(v)] on a string: 24 characters that
    [bytes.fromhex] reads. *)
Definition ObjectId_is_valid (v : string) : bool :=
  (py_len v =? 24)%nat && bool_decide (is_Some (fromhex v)).

(** [ObjectId(v)] on a string; [None] stands for [bson.errors.InvalidId]. *)
Definition ObjectId_of_str (v : string) : option ObjectId :=
  if ObjectId_is_valid v then MkObjectId <$> fromhex v else None.

(** [str(v)] for the values of a document. *)
Definition py_str (v : value) : string :=
  match v with
  | VNone => "None"
  | VInt z => pretty z
  | VStr s => s
  | VOid o => ObjectId_str o
  | VUrl u => u
  end.

(** ** Serialization (main.py, [serialize_doc]) *)

(** Truth value of an optional dictionary: [None] and the empty dictionary
    are false. *)
Definition truthy (d : option doc) : bool :=
  match d with
  | None => false
  | Some m => negb (bool_decide (m = ∅))
  end.

Definition serialize_doc (d : option doc) : option doc :=
  if negb (truthy d) then d
  else (fun m => <["_id" := VStr (py_str (doc_get m "_id"))]> m) <$> d.

(** ** Exceptions and the handler monad *)

Inductive exn :=
  | HTTPException (status_code : Z) (detail : string)
  | ValueError (msg : string)
  | TypeError (msg : string)
  | InvalidId (msg : string)
  | InvalidDocument (msg : string)
  | OverflowError (msg : string)
  | StoreError (msg : string).

(** [str(e)]: the message of the exception; an [HTTPException] renders as
    its status code, a colon and its detail. *)
Definition exn_str (e : exn) : string :=
  match e with
  | HTTPException status_code detail => pretty status_code ++ ": " ++ detail
  | ValueError msg | TypeError msg | InvalidId msg | InvalidDocument msg
  | OverflowError msg | StoreError msg => msg
  end.

Inductive outcome (A : Type) :=
  | Return (a : A)
  | Raise (e : exn).
Arguments Return {A} a.
Arguments Raise {A} e.

(** The status line the framework sends for a handler's outcome: a returned
    value is a 200, an [HTTPException] carries its own status, every other
    exception that leaves the handler is a 500. *)
Definition status_of {A} (o : outcome A) : Z :=
  match o with
  | Return _ => 200
  | Raise (HTTPException c _) => c
  | Raise _ => 500
  end.

(** The operations of the store client, recorded as they are issued. *)
Inductive StoreOp :=
  | OpFind (c : string)
  | OpFindOne (c : string)
  | OpInsertOne (c : string)
  | OpCountDocuments (c : string)
  | OpListCollectionNames.

(** The contents behind a store handle: the documents of every collection in
    insertion order, and the supply of fresh identifiers. *)
Record Database := mkDatabase {
  collections : gmap string (list doc);
  next_oid : N
}.

(** The process state: the module-level handle [db] ([None] when the store
    was never configured), [os.environ], and the store operations issued so
    far. *)
Record State := mkState {
  db : option Database;
  environ : gmap string string;
  trace : list StoreOp
}.

(** Computations over a state [S] that return or raise; what was written to
    the state before an exception is raised stays written. *)
Definition ST (S A : Type) : Type := S → outcome A * S.

Definition ret {S A} (a : A) : ST S A := λ st, (Return a, st).
Definition raise {S A} (e : exn) : ST S A := λ st, (Raise e, st).
Definition bind {S A B} (m : ST S A) (k : A → ST S B) : ST S B :=
  λ st, match m st with
        | (Return a, st') => k a st'
        | (Raise e, st') => (Raise e, st')
        end.

(** [try: body / except Exception as e: handler] *)
Definition try_except {S A} (body : ST S A) (handler : exn → ST S A) : ST S A :=
  λ st, match body st with
        | (Return a, st') => (Return a, st')
        | (Raise e, st') => handler e st'
        end.

Notation "x <- m ;; k" := (bind m (λ x, k))
  (at level 100, m at next level, right associativity).

(** Handlers run over the process state. *)
Abbreviation M := (ST State).

Definition get_db : M (option Database) := λ st, (Return (db st), st).

(** One call on the handle: on an absent handle Python raises [TypeError]
    (nothing is sent); otherwise the operation is recorded and applied. *)
Definition store_call {A} (op : StoreOp) (f : Database → A * Database) : M A :=
  λ st, match db st with
        | None => (Raise (TypeError "'NoneType' object is not subscriptable"), st)
        | Some d =>
            let '(a, d') := f d in
            (Return a, mkState (Some d') (environ st) (trace st ++ [op])%list)
        end.

(** ** The store client (pymongo) *)

(** [db[name]]: a collection that was never written to is empty. *)
Definition collection (d : Database) (name : string) : list doc :=
  default [] (collections d !! name).

(** A query document [{k1: v1, ...}] is kept as the list of its items.  A
    document matches when every queried field equals the queried value; a
    queried [None] also matches a missing field. *)
Definition matches (filt : list (string * value)) (d : doc) : bool :=
  forallb (λ kv, bool_decide (doc_get d kv.1 = kv.2)) filt.

(** [db[c].find(filt)], read to the end, in the store's natural order. *)
Definition find (c : string) (filt : list (string * value)) : M (list doc) :=
  store_call (OpFind c) (λ d, (filter (λ x, matches filt x = true) (collection d c), d)).

(** [db[c].find_one(filt)]: the first matching document, or [None]. *)
Definition find_one (c : string) (filt : list (string * value)) : M (option doc) :=
  store_call (OpFindOne c) (λ d, (head (filter (λ x, matches filt x = true) (collection d c)), d)).

(** [db[c].count_documents(filt)] *)
Definition count_documents (c : string) (filt : list (string * value)) : M Z :=
  store_call (OpCountDocuments c)
    (λ d, (Z.of_nat (length (filter (λ x, matches filt x = true) (collection d c))), d)).

(** What the driver refuses to encode.  A [Url] object is no value of the
    store ([InvalidDocument]); an integer must fit 8 bytes
    ([OverflowError]).  Of the dictionaries this application builds only a
    game can hold both, and there the thumbnail comes before the play
    count. *)
Definition is_url (v : value) : bool :=
  match v with
  | VUrl _ => true
  | _ => false
  end.

Definition int_fits (v : value) : bool :=
  match v with
  | VInt z => (- 2 ^ 63 <=? z)%Z && (z <? 2 ^ 63)%Z
  | _ => true
  end.

Definition encode_error (data : doc) : option exn :=
  let vs := (map_to_list data).*2 in
  if existsb is_url vs then Some (InvalidDocument "cannot encode object")
  else if forallb int_fits vs then None
  else Some (OverflowError "MongoDB can only handle up to 8-byte ints").

(** [db[c].insert_one(data).inserted_id]: a document the driver can encode
    is stored under a fresh, store-generated identifier; for one it cannot
    encode the call raises and nothing is stored. *)
Definition insert_one (c : string) (data : doc) : M ObjectId :=
  λ st, match db st with
        | None => (Raise (TypeError "'NoneType' object is not subscriptable"), st)
        | Some d =>
            match encode_error data with
            | Some e =>
                (Raise e, mkState (Some d) (environ st) (trace st ++ [OpInsertOne c])%list)
            | None =>
                let o := Oid (next_oid d) in
                (Return o,
                 mkState
                   (Some (mkDatabase
                            (<[c := (collection d c ++ [<["_id" := VOid o]> data])%list]>
                               (collections d))
                            (next_oid d + 1)%N))
                   (environ st) (trace st ++ [OpInsertOne c])%list)
            end
        end.

(** *** Cursors: [sort] and [limit] *)

(** The store compares values of different kinds by kind first (null and
    missing, then numbers, then strings, then identifiers) and values of one
    kind by their contents; strings and identifiers are compared byte by
    byte.  A [Url] object is never stored; it is ranked last. *)
Definition bson_rank (v : value) : nat :=
  match v with
  | VNone => 0
  | VInt _ => 1
  | VStr _ => 2
  | VOid _ => 3
  | VUrl _ => 4
  end.

Fixpoint str_leb (s t : string) : bool :=
  match s, t with
  | EmptyString, _ => true
  | String _ _, EmptyString => false
  | String a s', String b t' =>
      if (N_of_ascii a <? N_of_ascii b)%N then true
      else if (N_of_ascii a =? N_of_ascii b)%N then str_leb s' t'
      else false
  end.

Definition bson_leb (a b : value) : bool :=
  match a, b with
  | VInt x, VInt y => (x <=? y)%Z
  | VStr s, VStr t => str_leb s t
  | VOid o, VOid p => str_leb (binary o) (binary p)
  | _, _ => (bson_rank a <=? bson_rank b)%nat
  end.

(** The order [cursor.sort(key, direction)] puts two documents in: ascending
    on the value under [key] (a missing field counts as null), descending for
    a negative direction. *)
Definition sort_le (key : string) (direction : Z) (a b : doc) : Prop :=
  if (direction <? 0)%Z
  then bson_leb (doc_get b key) (doc_get a key) = true
  else bson_leb (doc_get a key) (doc_get b key) = true.

Global Instance sort_le_dec key direction a b : Decision (sort_le key direction a b).
Proof. unfold sort_le. destruct (direction <? 0)%Z; apply _. Defined.

Definition cursor_sort (key : string) (direction : Z) (l : list doc) : list doc :=
  merge_sort (sort_le key direction) l.

(** [cursor.limit(n)]: the driver documents that a limit of 0 is equivalent
    to no limit, and the server reads a negative limit as its absolute
    value. *)
Definition cursor_limit (n : Z) (l : list doc) : list doc :=
  if (n =? 0)%Z then l else take (Z.abs_nat n) l.

(** [db.list_collection_names()]: the one call whose failure the application
    handles.  [fault] is the exception the driver raises when the server
    cannot be reached, if any. *)
Definition list_collection_names (fault : option exn) : M (list string) :=
  λ st, match db st with
        | None => (Raise (TypeError "'NoneType' object has no attribute 'list_collection_names'"), st)
        | Some d =>
            (match fault with
             | Some e => Raise e
             | None => Return (map_to_list (collections d)).*1
             end,
             mkState (Some d) (environ st) (trace st ++ [OpListCollectionNames])%list)
        end.

(** ** The helpers of [database.py] *)

(** Modelled from the spec: [create_document] of [database.py], which is not
    among the sources.  The spec has the store client expose a per-collection
    insert and the create endpoints return the string of the store-generated
    identifier: the data is inserted into the named collection and the new
    identifier is returned as a string. *)
Definition create_document (collection_name : string) (data : doc) : M string :=
  o <- insert_one collection_name data ;;
  ret (ObjectId_str o).

(** Modelled from the spec: [get_documents] of [database.py], which is not
    among the sources.  The spec has [GET /api/games] filter the games by the
    query if one is given and list them all otherwise: the documents of the
    named collection that match the filter. *)
Definition get_documents (collection_name : string) (filter_dict : list (string * value))
  : M (list doc) :=
  find collection_name filter_dict.

(** ** Schemas (schemas.py) and request models (main.py) *)

Definition opt_str_value (s : option string) : value :=
  match s with
  | None => VNone
  | Some x => VStr x
  end.

Module User.
(** [username: str = Field(..., min_length=2, max_length=30)] *)
Definition username_ok (username : string) : bool :=
  (2 <=? py_len username)%nat && (py_len username <=? 30)%nat.

(** [avatar_url: Optional[HttpUrl]]; what a well-formed URL is belongs to
    the validation library and is taken as [is_http_url]. *)
Definition avatar_url_ok (is_http_url : string → bool) (avatar_url : option string) : bool :=
  match avatar_url with
  | None => true
  | Some u => is_http_url u
  end.

Definition validate (is_http_url : string → bool)
    (username : string) (avatar_url : option string) : bool :=
  username_ok username && avatar_url_ok is_http_url avatar_url.
End User.

Inductive Category := Puzzle | Adventure | Action | KidsLearning.

Definition Category_str (c : Category) : string :=
  match c with
  | Puzzle => "Puzzle"
  | Adventure => "Adventure"
  | Action => "Action"
  | KidsLearning => "Kids Learning"
  end.

Module Game.
(** A validated [Game] body, as the handler receives it; [thumbnail] is
    the text of the [Url] object the validation made of the field. *)
Record t := mk {
  title : string;
  description : string;
  category : Category;
  thumbnail : option string;
  plays : Z
}.

(** [game.model_dump()]: the thumbnail stays a [Url] object. *)
Definition model_dump (g : t) : doc :=
  {[ "title" := VStr (title g);
     "description" := VStr (description g);
     "category" := VStr (Category_str (category g));
     "thumbnail" := from_option VUrl VNone (thumbnail g);
     "plays" := VInt (plays g) ]}.
End Game.

Module CreateUserRequest.
Record t := mk {
  username : string;
  avatar_url : option string
}.

Definition model_dump (p : t) : doc :=
  {[ "username" := VStr (username p);
     "avatar_url" := opt_str_value (avatar_url p) ]}.
End CreateUserRequest.

Module SubmitScoreRequest.
Record t := mk {
  user_id : string;
  username : string;
  score : Z
}.
End SubmitScoreRequest.

(** ** Helpers of main.py *)

(** [ObjectId(v)] as a computation: [InvalidId] on a malformed string. *)
Definition ObjectId_new {S} (v : string) : ST S ObjectId :=
  match ObjectId_of_str v with
  | Some o => ret o
  | None => raise (InvalidId v)
  end.

(** [PyObjectId.validate(v)]: an identifier is returned as it is; anything
    [ObjectId.is_valid] refuses (a malformed string, or a value that is no
    string) raises [ValueError]. *)
Definition PyObjectId_validate {S} (v : value) : ST S ObjectId :=
  match v with
  | VOid o => ret o
  | VStr s =>
      if negb (ObjectId_is_valid s) then raise (ValueError "Invalid ObjectId")
      else ObjectId_new s
  | _ => raise (ValueError "Invalid ObjectId")
  end.

(** Truth value of an optional string: [None] and [""] are false. *)
Definition str_truthy (s : option string) : bool :=
  match s with
  | None | Some "" => false
  | Some _ => true
  end.

Definition db_not_configured : exn := HTTPException 500 "Database not configured".

(** ** Routes *)

(** [GET /api/games] *)
Definition list_games (category : option string) : M (list (option doc)) :=
  h <- get_db ;;
  match h with
  | None => raise db_not_configured
  | Some _ =>
      let filt := if str_truthy category then [("category", opt_str_value category)] else [] in
      docs <- get_documents "game" filt ;;
      ret (map (λ d, serialize_doc (Some d)) docs)
  end.

(** [POST /api/games] *)
Definition create_game (game : Game.t) : M doc :=
  h <- get_db ;;
  match h with
  | None => raise db_not_configured
  | Some _ =>
      _id <- create_document "game" (Game.model_dump game) ;;
      ret {[ "_id" := VStr _id ]}
  end.

(** [POST /api/users] *)
Definition create_user (payload : CreateUserRequest.t) : M (option doc) :=
  h <- get_db ;;
  match h with
  | None => raise db_not_configured
  | Some _ =>
      existing <- find_one "user" [("username", VStr (CreateUserRequest.username payload))] ;;
      if truthy existing then ret (serialize_doc existing)
      else
        _id <- create_document "user" (CreateUserRequest.model_dump payload) ;;
        o <- ObjectId_new _id ;;
        created <- find_one "user" [("_id", VOid o)] ;;
        ret (serialize_doc created)
  end.

(** [GET /api/users/{user_id}] *)
Definition get_user (user_id : string) : M (option doc) :=
  h <- get_db ;;
  match h with
  | None => raise db_not_configured
  | Some _ =>
      o <- PyObjectId_validate (VStr user_id) ;;
      user <- find_one "user" [("_id", VOid o)] ;;
      if negb (truthy user) then raise (HTTPException 404 "User not found")
      else ret (serialize_doc user)
  end.

(** [GET /api/leaderboard/{game_id}] *)
Definition get_leaderboard (game_id : string) (limit : Z) : M (list (option doc)) :=
  h <- get_db ;;
  match h with
  | None => raise db_not_configured
  | Some _ =>
      found <- find "leaderboardentry" [("game_id", VStr game_id)] ;;
      let entries := cursor_limit limit (cursor_sort "score" (-1) found) in
      ret (map (λ e, serialize_doc (Some e)) entries)
  end.

(** [POST /api/leaderboard/{game_id}] *)
Definition submit_score (game_id : string) (payload : SubmitScoreRequest.t) : M doc :=
  h <- get_db ;;
  match h with
  | None => raise db_not_configured
  | Some _ =>
      if (SubmitScoreRequest.score payload <? 0)%Z
      then raise (HTTPException 400 "Score must be non-negative")
      else
        let data : doc :=
          {[ "game_id" := VStr game_id;
             "user_id" := VStr (SubmitScoreRequest.user_id payload);
             "username" := VStr (SubmitScoreRequest.username payload);
             "score" := VInt (SubmitScoreRequest.score payload) ]} in
        _id <- create_document "leaderboardentry" data ;;
        ret {[ "_id" := VStr _id ]}
  end.

(** [POST /api/seed] *)

Definition sample (title description category : string) : doc :=
  {[ "title" := VStr title;
     "description" := VStr description;
     "category" := VStr category;
     "thumbnail" := VNone;
     "plays" := VInt 0 ]}.

Definition samples : list doc :=
  [ sample "Neon Blocks" "Stack and align glowing blocks in this chill puzzle." "Puzzle";
    sample "Cyber Runner" "Dash through a synth city, dodge obstacles, collect cores." "Adventure";
    sample "Pulse Shooter" "Arcade action with rhythmic enemy waves and power-ups." "Action";
    sample "ABC Quest" "Learn letters and sounds with friendly characters." "Kids Learning" ].

(** The two shapes of the seed response: [{"status": .., "message": ..}] and
    [{"inserted": ids}]. *)
Inductive seed_response :=
  | SeedStatus (status message : string)
  | SeedInserted (inserted : list string).

(** [for s in l: ids.append(create_document("game", s))] *)
Fixpoint seed_loop (l : list doc) (ids : list string) : M (list string) :=
  match l with
  | [] => ret ids
  | s :: rest =>
      i <- create_document "game" s ;;
      seed_loop rest (ids ++ [i])%list
  end.

Definition seed_games : M seed_response :=
  h <- get_db ;;
  match h with
  | None => raise db_not_configured
  | Some _ =>
      n <- count_documents "game" [] ;;
      if (0 <? n)%Z then ret (SeedStatus "ok" "Games already seeded")
      else
        ids <- seed_loop samples [] ;;
        ret (SeedInserted ids)
  end.

(** [GET /test] *)

(** The response dictionary of [test_database]; every key is present from
    the start, so the dictionary is kept as a record. *)
Record TestResponse := mkTestResponse {
  backend : string;
  database : string;
  database_url : option string;
  database_name : option string;
  connection_status : string;
  collections_seen : list string
}.

Definition set_database (v : string) (r : TestResponse) : TestResponse :=
  mkTestResponse (backend r) v (database_url r) (database_name r)
                 (connection_status r) (collections_seen r).
Definition set_database_url (v : option string) (r : TestResponse) : TestResponse :=
  mkTestResponse (backend r) (database r) v (database_name r)
                 (connection_status r) (collections_seen r).
Definition set_database_name (v : option string) (r : TestResponse) : TestResponse :=
  mkTestResponse (backend r) (database r) (database_url r) v
                 (connection_status r) (collections_seen r).
Definition set_connection_status (v : string) (r : TestResponse) : TestResponse :=
  mkTestResponse (backend r) (database r) (database_url r) (database_name r)
                 v (collections_seen r).
Definition set_collections (v : list string) (r : TestResponse) : TestResponse :=
  mkTestResponse (backend r) (database r) (database_url r) (database_name r)
                 (connection_status r) v.

(** A handler with one local variable of type [L]: the variable is part of
    the state, so an assignment made before an exception is seen by the
    handler of the enclosing [try]. *)
Definition lift {L A} (m : M A) : ST (L * State) A :=
  λ s, let '(o, st') := m s.2 in (o, (s.1, st')).
Definition assign {L} (f : L → L) : ST (L * State) unit :=
  λ s, (Return tt, (f s.1, s.2)).
Definition read_local {L} : ST (L * State) L :=
  λ s, (Return s.1, s).
Definition with_local {L A} (init : L) (m : ST (L * State) A) : M A :=
  λ st, let '(o, s') := m (init, st) in (o, s'.2).

(** [os.getenv(k)] *)
Definition getenv (k : string) : M (option string) :=
  λ st, (Return (environ st !! k), st).

Definition test_database (fault : option exn) : M TestResponse :=
  with_local
    (mkTestResponse "✅ Running" "❌ Not Available" None None "Not Connected" [])
    (_ <- try_except
            (h <- lift get_db ;;
             match h with
             | Some _ =>
                 _ <- assign (set_database "✅ Available") ;;
                 url <- lift (getenv "DATABASE_URL") ;;
                 _ <- assign (set_database_url
                                (Some (if str_truthy url then "✅ Set" else "❌ Not Set"))) ;;
                 name <- lift (getenv "DATABASE_NAME") ;;
                 _ <- assign (set_database_name
                                (Some (if str_truthy name then default "" name else "❌ Not Set"))) ;;
                 _ <- assign (set_connection_status "Connected") ;;
                 try_except
                   (collections <- lift (list_collection_names fault) ;;
                    _ <- assign (set_collections (take 10 collections)) ;;
                    assign (set_database "✅ Connected & Working"))
                   (λ e, assign (set_database
                                   ("⚠️  Connected but Error: " ++ str_take 50 (exn_str e))))
             | None => assign (set_database "⚠️  Available but not initialized")
             end)
            (λ e, assign (set_database ("❌ Error: " ++ str_take 50 (exn_str e)))) ;;
     read_local).

(** ** States and databases the properties are stated on *)

(** A stored user document. *)
Definition user_doc_example : doc :=
  {[ "_id" := VOid (Oid 255); "username" := VStr "Ann" ]}.

(** A process with the handle present, an empty store and no environment. *)
Definition empty_state : State := mkState (Some (mkDatabase ∅ 0)) ∅ [].

(** The documents of collection [c] in the store of a state; none when the
    handle is absent. *)
Definition stored (st : State) (c : string) : list doc :=
  from_option (λ d, collection d c) [] (db st).

(** The database after a document was inserted into collection [c]. *)
Definition inserted (c : string) (data : doc) (d : Database) : Database :=
  mkDatabase
    (<[c := (collection d c ++ [<["_id" := VOid (Oid (next_oid d))]> data])%list]>
       (collections d))
    (next_oid d + 1)%N.

(** The database after the documents of [l] were inserted one by one. *)
Fixpoint insert_all (c : string) (l : list doc) (d : Database) : Database :=
  match l with
  | [] => d
  | s :: rest => insert_all c rest (inserted c s d)
  end.

(** The [k] identifiers the store hands out from [n] on. *)
Fixpoint fresh_ids (n : N) (k : nat) : list ObjectId :=
  match k with
  | O => []
  | S k' => Oid n :: fresh_ids (n + 1) k'
  end.

(** Identifiers in the store are store-generated: every stored document
    carries one under ["_id"], handed out before the next fresh one, and the
    supply has not run out of 12-byte values. *)
Definition wf_db (d : Database) : Prop :=
  (next_oid d < 2 ^ 96)%N
  ∧ ∀ c (x : doc), x ∈ collection d c →
      ∃ i, x !! "_id" = Some (VOid (Oid i)) ∧ (i < next_oid d)%N.




(** ** Schemas and invariants the further properties are stated on *)

(** The field constraints of [schemas.Game] on a body whose category is one
    of the four literals: [title] of 2 to 80 characters, [description] of 10
    to 240, an optional well-formed [thumbnail], [plays] of 0 or more. *)
Definition Game_valid (is_http_url : string → bool) (g : Game.t) : bool :=
  (2 <=? py_len (Game.title g))%nat && (py_len (Game.title g) <=? 80)%nat
  && (10 <=? py_len (Game.description g))%nat
  && (py_len (Game.description g) <=? 240)%nat
  && match Game.thumbnail g with
     | None => true
     | Some u => is_http_url u
     end
  && (0 <=? Game.plays g)%Z.

(** The constraints of [schemas.Leaderboardentry] on a stored document:
    three string fields and an integer [score] of 0 or more. *)
Definition Leaderboardentry_valid (x : doc) : Prop :=
  (∃ g, x !! "game_id" = Some (VStr g))
  ∧ (∃ u, x !! "user_id" = Some (VStr u))
  ∧ (∃ n, x !! "username" = Some (VStr n))
  ∧ ∃ z, x !! "score" = Some (VInt z) ∧ (0 ≤ z)%Z.

(** Every stored leaderboard entry satisfies its schema. *)
Definition entries_valid (d : Database) : Prop :=
  ∀ x : doc, x ∈ collection d "leaderboardentry" → Leaderboardentry_valid x.

(** Within a collection an identifier names one document. *)
Definition unique_ids (d : Database) : Prop :=
  ∀ c (x y : doc), x ∈ collection d c → y ∈ collection d c →
    doc_get x "_id" = doc_get y "_id" → x = y.


(** A returned entry carries a string under ["_id"] that is a well-formed
    identifier. *)
Definition has_valid_id (e : option doc) : Prop :=
  ∃ (m : doc) (s : string),
    e = Some m ∧ m !! "_id" = Some (VStr s) ∧ ObjectId_is_valid s = true.

(** A database with one user. *)
Definition one_user_db : Database :=
  mkDatabase
    {[ "user" := [ {[ "_id" := VOid (Oid 0); "username" := VStr "Ann";
                      "avatar_url" := VNone ]} ] ]}
    1.

(** A database with two games and two leaderboard entries. *)
Definition played_db : Database :=
  mkDatabase
    {[ "game" :=
         [ <["_id" := VOid (Oid 0)]>
             (sample "Neon Blocks"
                "Stack and align glowing blocks in this chill puzzle." "Puzzle");
           <["_id" := VOid (Oid 1)]>
             (sample "Pulse Shooter"
                "Arcade action with rhythmic enemy waves and power-ups." "Action") ];
       "leaderboardentry" :=
         [ {[ "_id" := VOid (Oid 2); "game_id" := VStr "g"; "user_id" := VStr "u1";
              "username" := VStr "Ann"; "score" := VInt 42 ]};
           {[ "_id" := VOid (Oid 3); "game_id" := VStr "g"; "user_id" := VStr "u2";
              "username" := VStr "Bob"; "score" := VInt 50 ]} ] ]}
    4.

(** A database with two games of different categories. *)
Definition two_game_db : Database :=
  mkDatabase
    {[ "game" := [ <["_id" := VOid (Oid 0)]>
                     (sample "Neon Blocks"
                        "Stack and align glowing blocks in this chill puzzle." "Puzzle");
                   <["_id" := VOid (Oid 1)]>
                     (sample "Pulse Shooter"
                        "Arcade action with rhythmic enemy waves and power-ups." "Action") ] ]}
    2.

(** * Properties *)

(** Unfolds the monadic plumbing of a handler applied to a state. *)
Ltac run :=
  unfold bind, ret, raise, try_except, get_db, with_local, lift, assign,
    read_local, getenv;
  cbn [db environ trace fst snd negb str_truthy].

(** ** Serialization *)

Lemma truthy_Some (d : doc) : d ≠ ∅ → truthy (Some d) = true.
Proof. intros Hd. unfold truthy. by rewrite bool_decide_eq_false_2. Qed.

Lemma serialize_doc_Some (d : doc) :
  d ≠ ∅ →
  serialize_doc (Some d) = Some (<["_id" := VStr (py_str (doc_get d "_id"))]> d).
Proof. intros Hd. unfold serialize_doc. by rewrite truthy_Some. Qed.

Lemma doc_get_nonempty (d : doc) k v : doc_get d k = v → v ≠ VNone → d ≠ ∅.
Proof.
  intros Hget Hv ->. apply Hv. rewrite <- Hget.
  unfold doc_get. by rewrite lookup_empty.
Qed.

(** C7. Serializing a non-empty document puts the string rendering of what
    [doc.get("_id")] yields under the key ["_id"] and leaves the value of
    every other key as it was; the absent document [None] is returned as it
    is, and so is the empty document. *)
Theorem serialize_doc_frame :
  (∀ d : doc, d ≠ ∅ →
     ∃ d' : doc, serialize_doc (Some d) = Some d'
       ∧ d' !! "_id" = Some (VStr (py_str (doc_get d "_id")))
       ∧ ∀ k, k ≠ "_id" → d' !! k = d !! k)
  ∧ serialize_doc None = None
  ∧ serialize_doc (Some ∅) = Some ∅.
Proof.
  split; [|split; reflexivity].
  intros d Hd. eexists. split; [by apply serialize_doc_Some|]. split.
  - apply lookup_insert_eq.
  - intros k Hk. by apply lookup_insert_ne.
Qed.

Lemma serialize_doc_frame_witness :
  user_doc_example ≠ ∅
  ∧ ∃ d' : doc, serialize_doc (Some user_doc_example) = Some d'
      ∧ d' !! "_id" = Some (VStr "0000000000000000000000ff")
      ∧ d' !! "username" = Some (VStr "Ann").
Proof.
  assert (Hne : user_doc_example ≠ ∅).
  { intros Hempty. apply (f_equal (λ m : doc, m !! "username")) in Hempty.
    vm_compute in Hempty. discriminate. }
  split; [exact Hne|].
  destruct serialize_doc_frame as [H _].
  destruct (H user_doc_example Hne) as (d' & Hs & Hid & Hother).
  exists d'. split; [exact Hs|]. split.
  - rewrite Hid. reflexivity.
  - rewrite Hother by discriminate. reflexivity.
Defined.

(** ** The absent store handle *)

(** C8. With the handle absent every data-touching handler raises
    [HTTPException(500, "Database not configured")], whatever its
    arguments, and leaves the process state as it found it: no store
    operation is recorded. *)
Theorem db_absent_500 (env : gmap string string) (tr : list StoreOp) :
  let st := mkState None env tr in
  (∀ category, list_games category st = (Raise db_not_configured, st))
  ∧ (∀ game, create_game game st = (Raise db_not_configured, st))
  ∧ (∀ payload, create_user payload st = (Raise db_not_configured, st))
  ∧ (∀ user_id, get_user user_id st = (Raise db_not_configured, st))
  ∧ (∀ game_id limit, get_leaderboard game_id limit st = (Raise db_not_configured, st))
  ∧ (∀ game_id payload, submit_score game_id payload st = (Raise db_not_configured, st))
  ∧ seed_games st = (Raise db_not_configured, st)
  ∧ status_of (@Raise unit db_not_configured) = 500%Z.
Proof. repeat split. Qed.

(** ** Listing games *)

Lemma filter_matches_nil (l : list doc) :
  filter (λ x, matches [] x = true) l = l.
Proof.
  induction l as [|x l IH]; [done|].
  rewrite filter_cons_True by done. by rewrite IH.
Qed.

(** C10. An empty [category] is handled like an absent one: the two calls
    agree on every state, and with the handle present both list every game
    of the collection, serialized, after one [find] on it. *)
Theorem list_games_empty_category (h : option Database) (env : gmap string string)
    (tr : list StoreOp) (d : Database) :
  list_games (Some "") (mkState h env tr) = list_games None (mkState h env tr)
  ∧ list_games (Some "") (mkState (Some d) env tr)
    = (Return (map (λ x, serialize_doc (Some x)) (collection d "game")),
       mkState (Some d) env (tr ++ [OpFind "game"])).
Proof.
  split; [reflexivity|].
  unfold list_games, get_documents, find, store_call. run.
  by rewrite filter_matches_nil.
Qed.

(** ** Fetching a user *)

Lemma get_user_invalid (user_id : string) (d : Database) env tr :
  ObjectId_is_valid user_id = false →
  get_user user_id (mkState (Some d) env tr)
  = (Raise (ValueError "Invalid ObjectId"), mkState (Some d) env tr).
Proof.
  intros Hinv. unfold get_user, PyObjectId_validate. run. rewrite Hinv. by run.
Qed.

(** C1. With the handle present, the malformed identifier ["not-an-id"]
    makes [get_user] raise the [ValueError] of [PyObjectId.validate]; it is
    no [HTTPException], so the request is answered with a 500 and not with
    a 400. *)
Theorem get_user_not_an_id_500 (d : Database) (env : gmap string string)
    (tr : list StoreOp) :
  ObjectId_is_valid "not-an-id" = false
  ∧ (get_user "not-an-id" (mkState (Some d) env tr)).1
    = Raise (ValueError "Invalid ObjectId")
  ∧ status_of (get_user "not-an-id" (mkState (Some d) env tr)).1 = 500%Z.
Proof. by rewrite get_user_invalid. Qed.

(** ** Creating a user *)

(** C2. The body [{"username": "a"}] violates the [User] schema (one
    character), yet [create_user] on an empty store answers 200 and the
    document is inserted into the [user] collection as it came. *)
Theorem create_user_short_username_inserted (is_http_url : string → bool) :
  let payload := CreateUserRequest.mk "a" None in
  User.validate is_http_url "a" None = false
  ∧ status_of (create_user payload empty_state).1 = 200%Z
  ∧ stored empty_state "user" = []
  ∧ stored (create_user payload empty_state).2 "user"
    = [ {[ "_id" := VOid (Oid 0); "username" := VStr "a"; "avatar_url" := VNone ]} ].
Proof. repeat split; vm_compute; reflexivity. Qed.

(** ** Identifiers: rendering and parsing *)

Lemma hex_val_digit (v : N) : (v < 16)%N → hex_val (hex_digit v) = Some v.
Proof.
  intros Hv.
  assert (Hcases : Forall (λ x, hex_val (hex_digit x) = Some x)
                     (N.of_nat <$> seq 0 16)).
  { repeat constructor. }
  rewrite Forall_forall in Hcases. apply Hcases.
  apply list_elem_of_fmap. exists (N.to_nat v). split; [lia|].
  apply elem_of_seq. lia.
Qed.

Lemma hex_digit_plain (v : N) :
  is_space (hex_digit v) = false ∧ is_continuation (hex_digit v) = false.
Proof.
  destruct v as [|p]; [done|].
  repeat (destruct p as [p|p|]; try done).
Qed.

Lemma of_bytes_rev_to_bytes_rev (k : nat) (n : N) :
  of_bytes_rev (to_bytes_rev k n) = (n mod 256 ^ N.of_nat k)%N.
Proof.
  revert n. induction k as [|k IH]; intros n.
  - simpl. by rewrite N.mod_1_r.
  - cbn [to_bytes_rev of_bytes_rev].
    rewrite N_ascii_embedding by (apply N.mod_lt; lia).
    rewrite IH, Nat2N.inj_succ, N.pow_succ_r', N.Div0.mod_mul_r. lia.
Qed.

Lemma to_bytes_rev_length (k : nat) (n : N) : length (to_bytes_rev k n) = k.
Proof. revert n. induction k as [|k IH]; intros n; simpl; [done|]. by rewrite IH. Qed.

Lemma string_of_list_ascii_length (l : list ascii) :
  String.length (string_of_list_ascii l) = length l.
Proof. induction l as [|c l IH]; simpl; [done|]. by rewrite IH. Qed.

Lemma to_bytes_length (k : nat) (n : N) : String.length (to_bytes k n) = k.
Proof.
  unfold to_bytes. by rewrite string_of_list_ascii_length, length_rev, to_bytes_rev_length.
Qed.

(** Store-generated identifiers with different numbers are different. *)
Lemma Oid_inj (i j : N) : (i < 2 ^ 96)%N → (j < 2 ^ 96)%N → Oid i = Oid j → i = j.
Proof.
  intros Hi Hj Heq. apply (f_equal binary) in Heq.
  unfold Oid in Heq. cbn [binary] in Heq. unfold to_bytes in Heq.
  apply (f_equal (λ s, of_bytes_rev (rev (list_ascii_of_string s)))) in Heq.
  rewrite !list_ascii_of_string_of_list_ascii, !rev_involutive in Heq.
  rewrite !of_bytes_rev_to_bytes_rev in Heq.
  change (256 ^ N.of_nat 12)%N with (2 ^ 96)%N in Heq.
  by rewrite !N.mod_small in Heq.
Qed.

Lemma VOid_Oid_inj (i j : N) :
  (i < 2 ^ 96)%N → (j < 2 ^ 96)%N → VOid (Oid i) = VOid (Oid j) → i = j.
Proof.
  intros Hi Hj Heq. apply Oid_inj; [done..|].
  exact (f_equal (λ v, match v with VOid o => o | _ => Oid 0 end) Heq).
Qed.

Lemma fromhex_hexlify (b : string) : fromhex (hexlify b) = Some b.
Proof.
  induction b as [|c b IH]; [done|].
  assert (Hc : (N_of_ascii c < 256)%N) by apply N_ascii_bounded.
  cbn [hexlify fromhex].
  rewrite (proj1 (hex_digit_plain _)).
  rewrite !hex_val_digit by (try apply N.mod_lt; try apply N.Div0.div_lt_upper_bound; lia).
  rewrite IH. cbn. f_equal. f_equal.
  rewrite <- (ascii_N_embedding c) at 3. f_equal.
  rewrite (N.div_mod (N_of_ascii c) 16) at 3 by lia. lia.
Qed.

Lemma py_len_hexlify (b : string) : py_len (hexlify b) = 2 * String.length b.
Proof.
  induction b as [|c b IH]; [done|].
  cbn [hexlify py_len String.length].
  rewrite !(proj2 (hex_digit_plain _)), IH. lia.
Qed.

Lemma ObjectId_str_valid (n : N) : ObjectId_is_valid (ObjectId_str (Oid n)) = true.
Proof.
  unfold ObjectId_is_valid, ObjectId_str, Oid. cbn [binary].
  rewrite py_len_hexlify, to_bytes_length, fromhex_hexlify.
  apply andb_true_intro. split; [reflexivity|]. by apply bool_decide_eq_true_2.
Qed.

(** Parsing the rendering of an identifier gives the identifier back. *)
Lemma ObjectId_of_str_str (n : N) :
  (n < 2 ^ 96)%N → ObjectId_of_str (ObjectId_str (Oid n)) = Some (Oid n).
Proof.
  intros _. unfold ObjectId_of_str. rewrite ObjectId_str_valid.
  unfold ObjectId_str, Oid. cbn [binary]. by rewrite fromhex_hexlify.
Qed.

(** ** Inserting documents *)

Lemma encode_error_None (data : doc) :
  map_Forall (λ _ v, is_url v = false ∧ int_fits v = true) data →
  encode_error data = None.
Proof.
  intros Hall. unfold encode_error.
  assert (Hvs : ∀ v, In v (map_to_list data).*2 → is_url v = false ∧ int_fits v = true).
  { intros v Hv. apply list_elem_of_In, list_elem_of_fmap in Hv as ([k w] & -> & Hkw).
    apply elem_of_map_to_list in Hkw. by apply (Hall k). }
  replace (existsb is_url (map_to_list data).*2) with false.
  - by rewrite (proj2 (forallb_forall _ _)) by (intros v Hv; by apply Hvs).
  - symmetry. apply not_true_is_false. intros (v & Hv & Hurl)%existsb_exists.
    destruct (Hvs v Hv) as [Hno _]. congruence.
Qed.

(** Proves that a dictionary written as a literal can be encoded. *)
Ltac encodable :=
  apply encode_error_None;
  repeat (apply map_Forall_insert_2; [by split|]);
  first [apply map_Forall_empty | by apply map_Forall_singleton].

Lemma opt_str_value_plain (s : option string) :
  is_url (opt_str_value s) = false ∧ int_fits (opt_str_value s) = true.
Proof. by destruct s. Qed.

Lemma create_document_run c data d env tr :
  encode_error data = None →
  create_document c data (mkState (Some d) env tr)
  = (Return (ObjectId_str (Oid (next_oid d))),
     mkState (Some (inserted c data d)) env (tr ++ [OpInsertOne c])).
Proof. intros He. unfold create_document, insert_one, bind. cbn. by rewrite He. Qed.

Lemma create_document_refused c data d env tr (e : exn) :
  encode_error data = Some e →
  create_document c data (mkState (Some d) env tr)
  = (Raise e, mkState (Some d) env (tr ++ [OpInsertOne c])).
Proof. intros He. unfold create_document, insert_one, bind. cbn. by rewrite He. Qed.

Lemma collection_inserted c data d :
  collection (inserted c data d) c
  = (collection d c ++ [<["_id" := VOid (Oid (next_oid d))]> data])%list.
Proof. unfold collection at 1, inserted. simpl. by rewrite lookup_insert_eq. Qed.

Lemma collection_inserted_ne c c' data d :
  c ≠ c' → collection (inserted c data d) c' = collection d c'.
Proof. intros Hc. unfold collection, inserted. simpl. by rewrite lookup_insert_ne. Qed.

(** ** Submitting a score *)

Lemma encode_error_overflow (data : doc) k z :
  data !! k = Some (VInt z) → int_fits (VInt z) = false →
  map_Forall (λ _ v, is_url v = false) data →
  encode_error data = Some (OverflowError "MongoDB can only handle up to 8-byte ints").
Proof.
  intros Hk Hz Hall. unfold encode_error.
  replace (existsb is_url (map_to_list data).*2) with false.
  - destruct (forallb int_fits (map_to_list data).*2) eqn:Hfits; [|done].
    rewrite forallb_forall in Hfits. rewrite Hfits in Hz; [done|].
    apply list_elem_of_In, list_elem_of_fmap. exists (k, VInt z).
    split; [done|]. by apply elem_of_map_to_list.
  - symmetry. apply not_true_is_false. intros (v & Hv & Hurl)%existsb_exists.
    apply list_elem_of_In, list_elem_of_fmap in Hv as ([k' w] & -> & Hkw).
    apply elem_of_map_to_list in Hkw. specialize (Hall k' w Hkw). cbn in *. congruence.
Qed.

Lemma entry_encode_error (g u n : string) (z : Z) :
  encode_error {[ "game_id" := VStr g; "user_id" := VStr u;
                  "username" := VStr n; "score" := VInt z ]}
  = if int_fits (VInt z) then None
    else Some (OverflowError "MongoDB can only handle up to 8-byte ints").
Proof.
  destruct (int_fits (VInt z)) eqn:Hz.
  - apply encode_error_None.
    repeat (apply map_Forall_insert_2; [by split|]). apply map_Forall_empty.
  - apply (encode_error_overflow _ "score" z); [|done|].
    + rewrite !lookup_insert_ne by done. apply lookup_singleton_eq.
    + repeat (apply map_Forall_insert_2; [done|]). apply map_Forall_empty.
Qed.

(** Counterexample to C4 as stated: a score of 2^63 is not negative, yet
    the store cannot encode it; the request is answered with a 500 and no
    document is created. *)
Lemma submit_score_2_63_counterexample :
  (0 ≤ 2 ^ 63)%Z
  ∧ status_of (submit_score "g" (SubmitScoreRequest.mk "u1" "Ann" (2 ^ 63)) empty_state).1
    = 500%Z
  ∧ stored (submit_score "g" (SubmitScoreRequest.mk "u1" "Ann" (2 ^ 63)) empty_state).2
      "leaderboardentry" = [].
Proof. split; [lia|]. split; vm_compute; reflexivity. Qed.

(** C4, amended. With the handle present, a negative score raises
    [HTTPException(400)] and leaves the whole process state, hence the
    [leaderboardentry] collection, as it was; a score from 0 up to, but not
    including, 2^63 appends exactly one document, made of [game_id],
    [user_id], [username] and [score] under a fresh identifier, to
    [leaderboardentry], touches no other collection, and returns that
    identifier as a string; a score of 2^63 or more is refused by the store:
    the request is answered with a 500 and the database is as it was. *)
Theorem submit_score_spec (d : Database) (env : gmap string string) (tr : list StoreOp)
    (game_id : string) (payload : SubmitScoreRequest.t) :
  let st := mkState (Some d) env tr in
  ((SubmitScoreRequest.score payload < 0)%Z →
     submit_score game_id payload st
     = (Raise (HTTPException 400 "Score must be non-negative"), st)
     ∧ status_of (submit_score game_id payload st).1 = 400%Z)
  ∧ ((0 ≤ SubmitScoreRequest.score payload < 2 ^ 63)%Z →
     ∃ (n : N) (d' : Database),
       submit_score game_id payload st
       = (Return {[ "_id" := VStr (ObjectId_str (Oid n)) ]},
          mkState (Some d') env (tr ++ [OpInsertOne "leaderboardentry"]))
       ∧ collection d' "leaderboardentry"
         = (collection d "leaderboardentry"
            ++ [ <["_id" := VOid (Oid n)]>
                   {[ "game_id" := VStr game_id;
                      "user_id" := VStr (SubmitScoreRequest.user_id payload);
                      "username" := VStr (SubmitScoreRequest.username payload);
                      "score" := VInt (SubmitScoreRequest.score payload) ]} ])%list
       ∧ ∀ c, c ≠ "leaderboardentry" → collection d' c = collection d c)
  ∧ ((2 ^ 63 ≤ SubmitScoreRequest.score payload)%Z →
     status_of (submit_score game_id payload st).1 = 500%Z
     ∧ db (submit_score game_id payload st).2 = Some d).
Proof.
  intros st. subst st. split; [|split].
  - intros Hneg. unfold submit_score. run.
    apply Z.ltb_lt in Hneg. by rewrite Hneg.
  - intros [Hpos Hfit]. unfold submit_score. run.
    apply Z.ltb_ge in Hpos. rewrite Hpos. run.
    rewrite create_document_run.
    + eexists _, _. split; [reflexivity|]. split.
      * apply collection_inserted.
      * intros c Hc. by apply collection_inserted_ne.
    + rewrite entry_encode_error.
      replace (int_fits (VInt (SubmitScoreRequest.score payload))) with true; [done|].
      symmetry. cbn. apply andb_true_intro. split; [apply Z.leb_le|apply Z.ltb_lt]; lia.
  - intros Hbig. unfold submit_score. run.
    replace (SubmitScoreRequest.score payload <? 0)%Z with false
      by (symmetry; apply Z.ltb_ge; lia).
    run. rewrite (create_document_refused _ _ _ _ _
                    (OverflowError "MongoDB can only handle up to 8-byte ints")); [done|].
    rewrite entry_encode_error.
    replace (int_fits (VInt (SubmitScoreRequest.score payload))) with false; [done|].
    symmetry. cbn. apply andb_false_intro2, Z.ltb_ge. lia.
Qed.

Lemma submit_score_spec_witness :
  (-1 < 0)%Z
  ∧ submit_score "g" (SubmitScoreRequest.mk "u1" "Ann" (-1)) empty_state
    = (Raise (HTTPException 400 "Score must be non-negative"), empty_state)
  ∧ (0 ≤ 42 < 2 ^ 63)%Z
  ∧ (∃ (n : N) (d' : Database),
      (submit_score "g" (SubmitScoreRequest.mk "u1" "Ann" 42) empty_state).1
      = Return {[ "_id" := VStr (ObjectId_str (Oid n)) ]}
      ∧ db (submit_score "g" (SubmitScoreRequest.mk "u1" "Ann" 42) empty_state).2 = Some d'
      ∧ length (collection d' "leaderboardentry") = 1%nat)
  ∧ (2 ^ 63 ≤ 2 ^ 63)%Z
  ∧ status_of (submit_score "g" (SubmitScoreRequest.mk "u1" "Ann" (2 ^ 63)) empty_state).1
    = 500%Z.
Proof.
  split; [lia|]. split.
  { apply (submit_score_spec (mkDatabase ∅ 0) ∅ [] "g"
             (SubmitScoreRequest.mk "u1" "Ann" (-1))). simpl. lia. }
  split; [lia|]. split.
  { destruct (submit_score_spec (mkDatabase ∅ 0) ∅ [] "g"
                (SubmitScoreRequest.mk "u1" "Ann" 42)) as (_ & H & _).
    destruct H as (n & d' & Hrun & Hcoll & _); [simpl; lia|].
    exists n, d'. unfold empty_state. rewrite Hrun. simpl.
    split; [reflexivity|]. split; [reflexivity|].
    rewrite Hcoll. reflexivity. }
  split; [lia|].
  apply (submit_score_spec (mkDatabase ∅ 0) ∅ [] "g"
           (SubmitScoreRequest.mk "u1" "Ann" (2 ^ 63))). simpl. lia.
Defined.

(** ** Seeding the games *)

Lemma find_run c filt d env tr :
  find c filt (mkState (Some d) env tr)
  = (Return (filter (λ x, matches filt x = true) (collection d c)),
     mkState (Some d) env (tr ++ [OpFind c])).
Proof. reflexivity. Qed.

Lemma find_one_run c filt d env tr :
  find_one c filt (mkState (Some d) env tr)
  = (Return (head (filter (λ x, matches filt x = true) (collection d c))),
     mkState (Some d) env (tr ++ [OpFindOne c])).
Proof. reflexivity. Qed.

Lemma count_documents_run c filt d env tr :
  count_documents c filt (mkState (Some d) env tr)
  = (Return (Z.of_nat (length (filter (λ x, matches filt x = true) (collection d c)))),
     mkState (Some d) env (tr ++ [OpCountDocuments c])).
Proof. reflexivity. Qed.

Lemma samples_encodable : Forall (λ s, encode_error s = None) samples.
Proof. unfold samples, sample. repeat constructor; encodable. Qed.

Lemma seed_loop_run (l : list doc) :
  Forall (λ s, encode_error s = None) l →
  ∀ ids d env tr,
  seed_loop l ids (mkState (Some d) env tr)
  = (Return (ids ++ map ObjectId_str (fresh_ids (next_oid d) (length l)))%list,
     mkState (Some (insert_all "game" l d)) env
             (tr ++ repeat (OpInsertOne "game") (length l))).
Proof.
  induction 1 as [|s rest Hs _ IH]; intros ids d env tr.
  - simpl. unfold ret. by rewrite !app_nil_r.
  - cbn [seed_loop]. unfold bind. rewrite create_document_run, IH by done.
    cbn [length fresh_ids map repeat insert_all].
    replace (next_oid (inserted "game" s d)) with (next_oid d + 1)%N by reflexivity.
    by rewrite <- !app_assoc.
Qed.

Lemma collection_insert_all c (l : list doc) : ∀ d,
  collection (insert_all c l d) c
  = (collection d c
     ++ zip_with (λ o s, <["_id" := VOid o]> s) (fresh_ids (next_oid d) (length l)) l)%list.
Proof.
  induction l as [|s rest IH]; intros d.
  - simpl. by rewrite app_nil_r.
  - cbn [insert_all length fresh_ids zip_with]. rewrite IH, collection_inserted.
    replace (next_oid (inserted c s d)) with (next_oid d + 1)%N by reflexivity.
    by rewrite <- app_assoc.
Qed.

(** C6. With the handle present and the [game] collection empty,
    [seed_games] inserts the four samples, each under a fresh identifier,
    and returns the four identifiers; with the collection non-empty it
    returns the already-seeded message and leaves the database as it was.
    Hence a second call after a first one on an empty collection inserts
    nothing, and the collection holds four documents. *)
Theorem seed_games_spec (d : Database) (env : gmap string string) (tr : list StoreOp) :
  (collection d "game" = [] →
     ∃ (d' : Database) (tr' tr'' : list StoreOp),
       let ids := fresh_ids (next_oid d) 4 in
       seed_games (mkState (Some d) env tr)
       = (Return (SeedInserted (map ObjectId_str ids)), mkState (Some d') env tr')
       ∧ collection d' "game" = zip_with (λ o s, <["_id" := VOid o]> s) ids samples
       ∧ length (collection d' "game") = 4
       ∧ seed_games (mkState (Some d') env tr')
         = (Return (SeedStatus "ok" "Games already seeded"), mkState (Some d') env tr''))
  ∧ (collection d "game" ≠ [] →
     seed_games (mkState (Some d) env tr)
     = (Return (SeedStatus "ok" "Games already seeded"),
        mkState (Some d) env (tr ++ [OpCountDocuments "game"]))).
Proof.
  assert (Hseeded : ∀ d0 tr0, collection d0 "game" ≠ [] →
            seed_games (mkState (Some d0) env tr0)
            = (Return (SeedStatus "ok" "Games already seeded"),
               mkState (Some d0) env (tr0 ++ [OpCountDocuments "game"]))).
  { intros d0 tr0 Hne. unfold seed_games. run.
    rewrite count_documents_run, filter_matches_nil.
    destruct (collection d0 "game") as [|x l]; [done|]. reflexivity. }
  split; [|apply Hseeded].
  intros Hempty.
  assert (Hcoll : collection (insert_all "game" samples d) "game"
                  = zip_with (λ o s, <["_id" := VOid o]> s)
                      (fresh_ids (next_oid d) 4) samples).
  { rewrite collection_insert_all, Hempty. reflexivity. }
  eexists (insert_all "game" samples d), _, _. cbn zeta.
  split; [|split; [exact Hcoll|split]].
  - unfold seed_games. run.
    rewrite count_documents_run, filter_matches_nil, Hempty.
    change (0 <? Z.of_nat (length (@nil doc)))%Z with false. cbn beta iota.
    rewrite seed_loop_run by apply samples_encodable. reflexivity.
  - rewrite Hcoll. reflexivity.
  - apply Hseeded. rewrite Hcoll. discriminate.
Qed.

Lemma seed_games_spec_witness :
  collection (mkDatabase ∅ 0) "game" = []
  ∧ (seed_games empty_state).1
    = Return (SeedInserted [ "000000000000000000000000"; "000000000000000000000001";
                              "000000000000000000000002"; "000000000000000000000003" ])
  ∧ (seed_games (seed_games empty_state).2).1
    = Return (SeedStatus "ok" "Games already seeded")
  ∧ length (stored (seed_games (seed_games empty_state).2).2 "game") = 4.
Proof.
  split; [reflexivity|].
  destruct (seed_games_spec (mkDatabase ∅ 0) ∅ []) as [H _].
  destruct H as (d' & tr' & tr'' & Hfirst & _ & Hlen & Hsecond); [reflexivity|].
  unfold empty_state. rewrite Hfirst. cbn [fst snd]. rewrite Hsecond.
  unfold stored. cbn [fst snd db from_option].
  split; [reflexivity|]. split; [reflexivity|]. exact Hlen.
Defined.

(** ** Creating a user twice *)

Lemma matches_singleton k v (x : doc) :
  matches [(k, v)] x = true ↔ doc_get x k = v.
Proof.
  unfold matches. cbn [forallb fst snd]. rewrite andb_true_r.
  apply bool_decide_eq_true.
Qed.

Lemma head_None_nil {A} (l : list A) : head l = None → l = [].
Proof. by destruct l. Qed.

Lemma filter_none {A} (P : A → Prop) `{∀ x, Decision (P x)} (l : list A) :
  (∀ x, x ∈ l → ¬ P x) → filter P l = [].
Proof.
  induction l as [|y l IH]; intros Hall; [done|].
  rewrite filter_cons_False by (apply Hall; left).
  apply IH. intros x Hx. apply Hall. by right.
Qed.

Lemma filter_one {A} (P : A → Prop) `{∀ x, Decision (P x)} (x : A) :
  P x → filter P [x] = [x].
Proof. intros Hx. by rewrite filter_cons_True. Qed.

Lemma filter_fresh_id (d : Database) c :
  wf_db d →
  filter (λ x, matches [("_id", VOid (Oid (next_oid d)))] x = true) (collection d c) = [].
Proof.
  intros [Hroom Hids]. apply filter_none.
  intros x Hx Hm. apply matches_singleton in Hm.
  destruct (Hids c x Hx) as (i & Hi & Hlt).
  unfold doc_get in Hm. rewrite Hi in Hm.
  change (VOid (Oid i) = VOid (Oid (next_oid d))) in Hm.
  apply VOid_Oid_inj in Hm; lia.
Qed.

Lemma user_dump_encodable (p : CreateUserRequest.t) :
  encode_error (CreateUserRequest.model_dump p) = None.
Proof.
  apply encode_error_None. unfold CreateUserRequest.model_dump.
  apply map_Forall_insert_2; [done|].
  apply map_Forall_singleton, opt_str_value_plain.
Qed.

Lemma create_user_existing (d : Database) env tr (p : CreateUserRequest.t) (e : doc) :
  head (filter (λ x, matches [("username", VStr (CreateUserRequest.username p))] x = true)
          (collection d "user")) = Some e →
  create_user p (mkState (Some d) env tr)
  = (Return (Some (<["_id" := VStr (py_str (doc_get e "_id"))]> e)),
     mkState (Some d) env (tr ++ [OpFindOne "user"])).
Proof.
  intros Hhead.
  assert (Hne : e ≠ ∅).
  { apply head_Some_elem_of, list_elem_of_filter in Hhead as [Hm _].
    apply matches_singleton in Hm. by eapply doc_get_nonempty. }
  unfold create_user. run. rewrite find_one_run. cbn beta iota.
  rewrite Hhead, truthy_Some by done. by rewrite serialize_doc_Some.
Qed.

(** C5. With the handle present and store-generated identifiers, two
    successive calls of [create_user] with the same username return the
    same document, with the same string under ["_id"]; the second call
    leaves the database as the first one left it, and the first one either
    found the user or inserted exactly the submitted one. *)
Theorem create_user_idempotent (d : Database) (env : gmap string string)
    (tr : list StoreOp) (p1 p2 : CreateUserRequest.t) :
  wf_db d →
  CreateUserRequest.username p1 = CreateUserRequest.username p2 →
  ∃ (u : doc) (s : string) (d1 : Database) (tr1 tr2 : list StoreOp),
    create_user p1 (mkState (Some d) env tr) = (Return (Some u), mkState (Some d1) env tr1)
    ∧ create_user p2 (mkState (Some d1) env tr1) = (Return (Some u), mkState (Some d1) env tr2)
    ∧ u !! "_id" = Some (VStr s)
    ∧ (d1 = d ∨ d1 = inserted "user" (CreateUserRequest.model_dump p1) d).
Proof.
  intros Hwf Hname.
  destruct (head (filter (λ x, matches [("username", VStr (CreateUserRequest.username p1))] x = true)
                    (collection d "user"))) as [e|] eqn:Hhead.
  - eexists _, _, d, _, _. split; [by apply create_user_existing|].
    split; [|split; [apply lookup_insert_eq|by left]].
    apply create_user_existing. by rewrite <- Hname.
  - set (nd := <["_id" := VOid (Oid (next_oid d))]> (CreateUserRequest.model_dump p1)).
    assert (Hid : doc_get nd "_id" = VOid (Oid (next_oid d))).
    { unfold doc_get, nd. by rewrite lookup_insert_eq. }
    assert (Huser : doc_get nd "username" = VStr (CreateUserRequest.username p1)).
    { unfold doc_get, nd, CreateUserRequest.model_dump.
      rewrite lookup_insert_ne by done. by rewrite lookup_insert_eq. }
    assert (Hne : nd ≠ ∅) by (by eapply doc_get_nonempty).
    eexists _, _, (inserted "user" (CreateUserRequest.model_dump p1) d), _, _.
    split; [|split; [|split; [apply lookup_insert_eq|by right]]].
    + unfold create_user. run. rewrite find_one_run. cbn beta iota.
      rewrite Hhead. cbn [truthy].
      rewrite create_document_run by apply user_dump_encodable. cbn beta iota.
      unfold ObjectId_new. rewrite ObjectId_of_str_str by apply Hwf.
      unfold ret. rewrite find_one_run. cbn beta iota.
      rewrite collection_inserted, filter_app, filter_fresh_id by done.
      rewrite filter_one by (by apply matches_singleton).
      cbn [app head]. fold nd. rewrite serialize_doc_Some by done. reflexivity.
    + rewrite Hid. apply create_user_existing.
      rewrite collection_inserted, filter_app, <- Hname.
      rewrite (head_None_nil _ Hhead).
      rewrite filter_one by (by apply matches_singleton).
      reflexivity.
Qed.

Lemma wf_db_empty : wf_db (mkDatabase ∅ 0).
Proof.
  split; [reflexivity|].
  intros c x Hx. unfold collection in Hx. simpl in Hx.
  rewrite lookup_empty in Hx. by apply elem_of_nil in Hx.
Qed.

Lemma create_user_idempotent_witness :
  wf_db (mkDatabase ∅ 0)
  ∧ ∃ (u : doc) (s : string) (d1 : Database) (tr1 tr2 : list StoreOp),
      create_user (CreateUserRequest.mk "Ann" None) empty_state
      = (Return (Some u), mkState (Some d1) ∅ tr1)
      ∧ create_user (CreateUserRequest.mk "Ann" (Some "http://example.org/a.png"))
          (mkState (Some d1) ∅ tr1)
        = (Return (Some u), mkState (Some d1) ∅ tr2)
      ∧ u !! "_id" = Some (VStr s)
      ∧ (d1 = mkDatabase ∅ 0
         ∨ d1 = inserted "user" (CreateUserRequest.model_dump (CreateUserRequest.mk "Ann" None))
                  (mkDatabase ∅ 0)).
Proof.
  split; [exact wf_db_empty|].
  apply (create_user_idempotent (mkDatabase ∅ 0) ∅ []
           (CreateUserRequest.mk "Ann" None)
           (CreateUserRequest.mk "Ann" (Some "http://example.org/a.png"))).
  - exact wf_db_empty.
  - reflexivity.
Defined.

(** ** The diagnostic route *)

(** [s[:n]] cuts [s] in two at a character boundary, and what it keeps
    has [n] characters, or all of them when [s] has fewer. *)
Lemma str_take_cut (s : string) : ∀ n : nat,
  ∃ rest : string,
    s = str_take n s ++ rest
    ∧ py_len (str_take n s) = Nat.min n (py_len s)
    ∧ (rest = "" ∨ ∃ c r, rest = String c r ∧ is_continuation c = false).
Proof.
  induction s as [|c s IH]; intros n.
  - exists "". split; [done|]. split; [by rewrite Nat.min_0_r|by left].
  - cbn [str_take py_len]. destruct (is_continuation c) eqn:Hc.
    + destruct (IH n) as (rest & Hs & Hlen & Hrest). exists rest.
      split; [change (String c s = String c (str_take n s ++ rest)); by f_equal|]. split; [|done].
      cbn [py_len]. by rewrite Hc.
    + destruct n as [|n].
      * exists (String c s). split; [done|]. split; [done|]. right. by eexists _, _.
      * destruct (IH n) as (rest & Hs & Hlen & Hrest). exists rest.
        split; [change (String c s = String c (str_take n s ++ rest)); by f_equal|].
        split; [|done].
        cbn [py_len]. rewrite Hc, Hlen. lia.
Qed.

Lemma str_take_all (s : string) : ∀ n : nat, (py_len s ≤ n)%nat → str_take n s = s.
Proof.
  induction s as [|c s IH]; intros n Hn; [done|].
  cbn [str_take py_len] in *. destruct (is_continuation c).
  - by rewrite IH.
  - destruct n as [|n]; [lia|]. rewrite IH; [done|lia].
Qed.

(** C9. [test_database] returns a response, hence a 200, whatever the state
    of the handle and whatever exception the probe of the store raises; with
    the handle present and the probe raising [e], the [database] entry of the
    response is the diagnostic text followed by [str(e)] cut after its first
    50 characters: what is kept and what is dropped make up [str(e)], the
    kept part has 50 characters, or all of them when there are fewer, and
    the cut does not fall inside a character. *)
Theorem test_database_always_200 (env : gmap string string) (tr : list StoreOp) :
  (∀ (fault : option exn) (h : option Database),
     ∃ r, (test_database fault (mkState h env tr)).1 = Return r
          ∧ status_of (test_database fault (mkState h env tr)).1 = 200%Z)
  ∧ (∀ (e : exn) (d : Database),
       ∃ (r : TestResponse) (kept rest : string),
         (test_database (Some e) (mkState (Some d) env tr)).1 = Return r
         ∧ database r = "⚠️  Connected but Error: " ++ kept
         ∧ exn_str e = kept ++ rest
         ∧ py_len kept = Nat.min 50 (py_len (exn_str e))
         ∧ (rest = "" ∨ ∃ c r', rest = String c r' ∧ is_continuation c = false)).
Proof.
  split.
  - intros [e|] [d|]; eexists; split; reflexivity.
  - intros e d. destruct (str_take_cut (exn_str e) 50) as (rest & Hs & Hlen & Hrest).
    exists (mkTestResponse "✅ Running"
              ("⚠️  Connected but Error: " ++ str_take 50 (exn_str e))
              (Some (if str_truthy (env !! "DATABASE_URL") then "✅ Set" else "❌ Not Set"))
              (Some (if str_truthy (env !! "DATABASE_NAME")
                     then default "" (env !! "DATABASE_NAME") else "❌ Not Set"))
              "Connected" []),
           (str_take 50 (exn_str e)), rest.
    split; [reflexivity|]. split; [reflexivity|]. by repeat split.
Qed.

(** ** The order of the store *)

Lemma str_leb_total (s t : string) : str_leb s t = true ∨ str_leb t s = true.
Proof.
  revert t. induction s as [|a s IH]; intros [|b t]; simpl; auto.
  destruct (N.ltb_spec (N_of_ascii a) (N_of_ascii b)),
           (N.ltb_spec (N_of_ascii b) (N_of_ascii a)),
           (N.eqb_spec (N_of_ascii a) (N_of_ascii b)),
           (N.eqb_spec (N_of_ascii b) (N_of_ascii a)); auto; lia.
Qed.

Lemma str_leb_trans (s t u : string) :
  str_leb s t = true → str_leb t u = true → str_leb s u = true.
Proof.
  revert t u. induction s as [|a s IH]; intros [|b t] [|c u]; simpl; try done.
  destruct (N.ltb_spec (N_of_ascii a) (N_of_ascii b)),
           (N.ltb_spec (N_of_ascii b) (N_of_ascii c)),
           (N.ltb_spec (N_of_ascii a) (N_of_ascii c)),
           (N.eqb_spec (N_of_ascii a) (N_of_ascii b)),
           (N.eqb_spec (N_of_ascii b) (N_of_ascii c)),
           (N.eqb_spec (N_of_ascii a) (N_of_ascii c));
    try done; try lia; eauto.
Qed.

Lemma bson_leb_total (a b : value) : bson_leb a b = true ∨ bson_leb b a = true.
Proof.
  destruct a as [|x|s|o|u], b as [|y|t|p|w]; simpl; auto.
  - destruct (Z.leb_spec x y), (Z.leb_spec y x); auto; lia.
  - apply str_leb_total.
  - apply str_leb_total.
Qed.

Lemma bson_leb_trans (a b c : value) :
  bson_leb a b = true → bson_leb b c = true → bson_leb a c = true.
Proof.
  destruct a as [|x|s|o|u1], b as [|y|t|p|u2], c as [|z|u|q|u3]; simpl; try done.
  - rewrite !Z.leb_le. lia.
  - apply str_leb_trans.
  - apply str_leb_trans.
Qed.


Global Instance sort_le_total key direction : Total (sort_le key direction).
Proof.
  intros a b. unfold sort_le. destruct (direction <? 0)%Z; apply bson_leb_total.
Qed.

Global Instance sort_le_trans key direction : Transitive (sort_le key direction).
Proof.
  intros a b c. unfold sort_le. destruct (direction <? 0)%Z; eauto using bson_leb_trans.
Qed.


Lemma cursor_sort_perm key direction (l : list doc) :
  cursor_sort key direction l ≡ₚ l.
Proof. apply merge_sort_Permutation. Qed.


Lemma cursor_limit_subseteq n (l : list doc) : cursor_limit n l ⊆ l.
Proof.
  unfold cursor_limit. destruct (n =? 0)%Z; [done|].
  apply subseteq_take.
Qed.


(** ** Reading a leaderboard *)



Lemma map_fmap {A B} (f : A → B) (l : list A) : map f l = f <$> l.
Proof. reflexivity. Qed.





(** * Further properties *)

(** ** Identifiers *)

Lemma ObjectId_of_str_valid (s : string) :
  ObjectId_is_valid s = true → is_Some (ObjectId_of_str s).
Proof.
  intros Hs. unfold ObjectId_of_str. rewrite Hs.
  apply andb_prop in Hs as [_ Hhex]. apply bool_decide_eq_true in Hhex as [b Hb].
  rewrite Hb. by eexists.
Qed.

Lemma ObjectId_of_str_Some (s : string) (o : ObjectId) :
  ObjectId_of_str s = Some o → ObjectId_is_valid s = true.
Proof. unfold ObjectId_of_str. by destruct (ObjectId_is_valid s). Qed.

(** X1. [PyObjectId.validate] returns an identifier as it is, gives back
    the identifier whose rendering it is handed, returns the identifier
    [ObjectId] makes of any string [ObjectId.is_valid] accepts, raises
    [ValueError] on a string it does not accept, and in no case lets
    [InvalidId] escape or touches the state. *)
Theorem PyObjectId_validate_spec (S : Type) (st : S) :
  (∀ o, PyObjectId_validate (VOid o) st = (Return o, st))
  ∧ (∀ n, (n < 2 ^ 96)%N →
       PyObjectId_validate (VStr (ObjectId_str (Oid n))) st = (Return (Oid n), st))
  ∧ (∀ s, ObjectId_is_valid s = true →
       ∃ o, ObjectId_of_str s = Some o
            ∧ PyObjectId_validate (VStr s) st = (Return o, st))
  ∧ (∀ s, ObjectId_is_valid s = false →
       PyObjectId_validate (VStr s) st = (Raise (ValueError "Invalid ObjectId"), st))
  ∧ (∀ v, (∃ o, PyObjectId_validate v st = (Return o, st))
          ∨ PyObjectId_validate v st = (Raise (ValueError "Invalid ObjectId"), st)).
Proof.
  assert (Hvalid : ∀ s, ObjectId_is_valid s = true →
            ∃ o, ObjectId_of_str s = Some o
                 ∧ PyObjectId_validate (VStr s) st = (Return o, st)).
  { intros s Hs. destruct (ObjectId_of_str_valid s Hs) as [o Ho]. exists o.
    split; [done|]. unfold PyObjectId_validate, ObjectId_new. by rewrite Hs, Ho. }
  split; [done|]. split; [|split; [exact Hvalid|split]].
  - intros n Hn. unfold PyObjectId_validate, ObjectId_new.
    by rewrite ObjectId_str_valid, ObjectId_of_str_str.
  - intros s Hs. unfold PyObjectId_validate. by rewrite Hs.
  - intros [|z|s|o|u]; [by right|by right| |left; by eexists|by right].
    destruct (ObjectId_is_valid s) eqn:Hs.
    + destruct (Hvalid s Hs) as (o & _ & Ho). left. by eexists.
    + right. unfold PyObjectId_validate. by rewrite Hs.
Qed.

Lemma PyObjectId_validate_spec_witness :
  (255 < 2 ^ 96)%N
  ∧ PyObjectId_validate (VStr "0000000000000000000000ff") tt = (Return (Oid 255), tt)
  ∧ ObjectId_is_valid "00000000000000000000 0A " = true
  ∧ (∃ o, ObjectId_of_str "00000000000000000000 0A " = Some o
          ∧ PyObjectId_validate (VStr "00000000000000000000 0A ") tt = (Return o, tt))
  ∧ ObjectId_is_valid "not-an-id" = false
  ∧ PyObjectId_validate (VStr "not-an-id") tt = (Raise (ValueError "Invalid ObjectId"), tt).
Proof.
  destruct (PyObjectId_validate_spec unit tt) as (_ & Hround & Hvalid & Hbad & _).
  split; [reflexivity|]. split; [apply (Hround 255%N); reflexivity|].
  split; [reflexivity|]. split; [apply Hvalid; reflexivity|].
  split; [reflexivity|]. apply Hbad. reflexivity.
Defined.

(** ** Serialization *)

(** X2. Serializing twice is serializing once: the string put under
    ["_id"] is its own rendering. *)
Theorem serialize_doc_idempotent (d : option doc) :
  serialize_doc (serialize_doc d) = serialize_doc d.
Proof.
  destruct d as [m|]; [|done].
  destruct (decide (m = ∅)) as [->|Hm]; [done|].
  rewrite (serialize_doc_Some m Hm).
  rewrite serialize_doc_Some by apply insert_non_empty.
  unfold doc_get at 1. rewrite lookup_insert_eq. simpl.
  by rewrite insert_insert_eq.
Qed.

(** ** Routes that only read *)

Lemma get_user_found (s : string) (o : ObjectId) (e : doc) d env tr :
  ObjectId_of_str s = Some o →
  head (filter (λ x, matches [("_id", VOid o)] x = true) (collection d "user")) = Some e →
  get_user s (mkState (Some d) env tr)
  = (Return (Some (<["_id" := VStr (py_str (doc_get e "_id"))]> e)),
     mkState (Some d) env (tr ++ [OpFindOne "user"])).
Proof.
  intros Ho Hhead.
  assert (Hne : e ≠ ∅).
  { apply head_Some_elem_of, list_elem_of_filter in Hhead as [Hm _].
    apply matches_singleton in Hm. by eapply doc_get_nonempty. }
  unfold get_user, PyObjectId_validate, ObjectId_new. run.
  rewrite (ObjectId_of_str_Some s o Ho), Ho. run.
  rewrite find_one_run. cbn beta iota.
  rewrite Hhead, truthy_Some by done. cbn [negb]. by rewrite serialize_doc_Some.
Qed.

Lemma get_user_missing (s : string) (o : ObjectId) d env tr :
  ObjectId_of_str s = Some o →
  head (filter (λ x, matches [("_id", VOid o)] x = true) (collection d "user")) = None →
  get_user s (mkState (Some d) env tr)
  = (Raise (HTTPException 404 "User not found"),
     mkState (Some d) env (tr ++ [OpFindOne "user"])).
Proof.
  intros Ho Hhead.
  unfold get_user, PyObjectId_validate, ObjectId_new. run.
  rewrite (ObjectId_of_str_Some s o Ho), Ho. run.
  rewrite find_one_run. cbn beta iota. by rewrite Hhead.
Qed.

(** X3. The reading routes never write: whatever their arguments and
    whatever they return or raise, [list_games], [get_user],
    [get_leaderboard] and [test_database] leave the handle and the contents
    of the store as they were. *)
Theorem read_routes_keep_db (st : State) :
  (∀ category, db (list_games category st).2 = db st)
  ∧ (∀ user_id, db (get_user user_id st).2 = db st)
  ∧ (∀ game_id limit, db (get_leaderboard game_id limit st).2 = db st)
  ∧ (∀ fault, db (test_database fault st).2 = db st).
Proof.
  destruct st as [[d|] env tr]; [|repeat split].
  split; [|split; [|split]].
  - intros category. unfold list_games, get_documents. run. by rewrite find_run.
  - intros s. destruct (ObjectId_of_str s) as [o|] eqn:Ho.
    + destruct (head (filter (λ x, matches [("_id", VOid o)] x = true)
                        (collection d "user"))) as [e|] eqn:Hhead.
      * by erewrite get_user_found.
      * by erewrite get_user_missing.
    + unfold get_user, PyObjectId_validate, ObjectId_new. run.
      destruct (ObjectId_is_valid s); run; [by rewrite Ho|done].
  - intros g limit. unfold get_leaderboard. run. by rewrite find_run.
  - intros [e|]; reflexivity.
Qed.

(** X4. With the handle present, a well-formed identifier that no stored
    user carries makes [get_user] raise [HTTPException(404)] after one
    [find_one]; the store is left as it was. *)
Theorem get_user_unknown_404 (d : Database) (env : gmap string string)
    (tr : list StoreOp) (user_id : string) (o : ObjectId) :
  ObjectId_of_str user_id = Some o →
  (∀ x : doc, x ∈ collection d "user" → doc_get x "_id" ≠ VOid o) →
  get_user user_id (mkState (Some d) env tr)
  = (Raise (HTTPException 404 "User not found"),
     mkState (Some d) env (tr ++ [OpFindOne "user"]))
  ∧ status_of (get_user user_id (mkState (Some d) env tr)).1 = 404%Z.
Proof.
  intros Ho Hnone.
  assert (Hrun := get_user_missing user_id o d env tr Ho).
  rewrite Hrun; [done|].
  rewrite filter_none; [done|].
  intros x Hx Hm. apply matches_singleton in Hm. by apply (Hnone x).
Qed.

Lemma get_user_unknown_404_witness :
  ObjectId_of_str "0000000000000000000000ff" = Some (Oid 255)
  ∧ (∀ x : doc, x ∈ collection one_user_db "user" → doc_get x "_id" ≠ VOid (Oid 255))
  ∧ status_of (get_user "0000000000000000000000ff" (mkState (Some one_user_db) ∅ [])).1
    = 404%Z.
Proof.
  assert (Ho : ObjectId_of_str "0000000000000000000000ff" = Some (Oid 255)).
  { reflexivity. }
  assert (Hnone : ∀ x : doc, x ∈ collection one_user_db "user" →
                    doc_get x "_id" ≠ VOid (Oid 255)).
  { intros x Hx. apply list_elem_of_singleton in Hx as ->. vm_compute. discriminate. }
  split; [exact Ho|]. split; [exact Hnone|].
  apply (get_user_unknown_404 one_user_db ∅ [] _ _ Ho Hnone).
Defined.

(** ** Users: creating, then fetching *)

Lemma create_user_new (d : Database) env tr (p : CreateUserRequest.t) :
  wf_db d →
  head (filter (λ x, matches [("username", VStr (CreateUserRequest.username p))] x = true)
          (collection d "user")) = None →
  create_user p (mkState (Some d) env tr)
  = (Return (Some (<["_id" := VStr (ObjectId_str (Oid (next_oid d)))]>
                     (CreateUserRequest.model_dump p))),
     mkState (Some (inserted "user" (CreateUserRequest.model_dump p) d)) env
             (tr ++ [OpFindOne "user"] ++ [OpInsertOne "user"] ++ [OpFindOne "user"])).
Proof.
  intros Hwf Hhead.
  set (nd := <["_id" := VOid (Oid (next_oid d))]> (CreateUserRequest.model_dump p)).
  assert (Hid : doc_get nd "_id" = VOid (Oid (next_oid d))).
  { unfold doc_get, nd. by rewrite lookup_insert_eq. }
  assert (Hne : nd ≠ ∅) by (by eapply doc_get_nonempty).
  unfold create_user. run. rewrite find_one_run. cbn beta iota.
  rewrite Hhead. cbn [truthy].
  rewrite create_document_run by apply user_dump_encodable. cbn beta iota.
  unfold ObjectId_new. rewrite ObjectId_of_str_str by apply Hwf.
  unfold ret. rewrite find_one_run. cbn beta iota.
  rewrite collection_inserted, filter_app, filter_fresh_id by done.
  rewrite filter_one by (by apply matches_singleton).
  cbn [app head]. fold nd. rewrite serialize_doc_Some by done.
  rewrite Hid. unfold nd. rewrite insert_insert_eq.
  by rewrite <- !app_assoc.
Qed.

Lemma doc_get_Some (x : doc) k v : doc_get x k = v → v ≠ VNone → x !! k = Some v.
Proof.
  unfold doc_get. destruct (x !! k) as [w|]; simpl; [by intros ->|by intros <-].
Qed.

(** X5. With the handle present and store-generated identifiers,
    [create_user] always returns a user: the document it returns carries the
    requested username and a well-formed identifier string under ["_id"],
    and the [user] collection is either unchanged or one document longer. *)
Theorem create_user_returns_user (d : Database) (env : gmap string string)
    (tr : list StoreOp) (p : CreateUserRequest.t) :
  wf_db d →
  ∃ (u : doc) (s : string) (d1 : Database) (tr1 : list StoreOp),
    create_user p (mkState (Some d) env tr) = (Return (Some u), mkState (Some d1) env tr1)
    ∧ u !! "username" = Some (VStr (CreateUserRequest.username p))
    ∧ u !! "_id" = Some (VStr s)
    ∧ ObjectId_is_valid s = true
    ∧ (collection d1 "user" = collection d "user"
       ∨ ∃ x, collection d1 "user" = (collection d "user" ++ [x])%list).
Proof.
  intros Hwf.
  destruct (head (filter (λ x, matches [("username", VStr (CreateUserRequest.username p))] x = true)
                    (collection d "user"))) as [e|] eqn:Hhead.
  - pose proof Hhead as Hin.
    apply head_Some_elem_of, list_elem_of_filter in Hin as [Hm Hin].
    apply matches_singleton in Hm.
    destruct Hwf as [_ Hids]. destruct (Hids _ _ Hin) as (i & Hi & _).
    eexists _, _, d, _. split; [by apply create_user_existing|].
    split; [|split; [apply lookup_insert_eq|split; [|by left]]].
    + rewrite lookup_insert_ne by done. by apply doc_get_Some.
    + unfold doc_get. rewrite Hi. apply ObjectId_str_valid.
  - eexists _, _, _, _. split; [by apply create_user_new|].
    split; [|split; [apply lookup_insert_eq|split; [apply ObjectId_str_valid|right]]].
    + rewrite lookup_insert_ne by done. unfold CreateUserRequest.model_dump.
      apply lookup_insert_eq.
    + eexists. apply collection_inserted.
Qed.

Lemma one_user_db_wf : wf_db one_user_db.
Proof.
  split; [reflexivity|]. intros c x Hx.
  destruct (decide (c = "user")) as [->|Hc].
  - apply list_elem_of_singleton in Hx as ->. exists 0%N. split; reflexivity.
  - unfold collection, one_user_db in Hx. simpl in Hx.
    rewrite lookup_singleton_ne in Hx by done. by apply elem_of_nil in Hx.
Qed.

Lemma one_user_db_unique : unique_ids one_user_db.
Proof.
  intros c x y Hx Hy _.
  destruct (decide (c = "user")) as [->|Hc].
  - apply list_elem_of_singleton in Hx as ->. by apply list_elem_of_singleton in Hy as ->.
  - unfold collection, one_user_db in Hx. simpl in Hx.
    rewrite lookup_singleton_ne in Hx by done. by apply elem_of_nil in Hx.
Qed.

Lemma create_user_returns_user_witness :
  wf_db one_user_db
  ∧ ∃ (u : doc) (s : string),
      (create_user (CreateUserRequest.mk "Bob" None) (mkState (Some one_user_db) ∅ [])).1
      = Return (Some u)
      ∧ u !! "username" = Some (VStr "Bob")
      ∧ u !! "_id" = Some (VStr s).
Proof.
  split; [exact one_user_db_wf|].
  destruct (create_user_returns_user one_user_db ∅ [] (CreateUserRequest.mk "Bob" None)
              one_user_db_wf)
    as (u & s & d1 & tr1 & Hrun & Hname & Hid & _).
  exists u, s. rewrite Hrun. by repeat split.
Defined.

(** X6. What [create_user] returns can be fetched: with the handle
    present, store-generated identifiers and one document per identifier,
    [get_user] on the ["_id"] of the returned user returns that same
    document. *)
Theorem create_user_then_get_user (d : Database) (env : gmap string string)
    (tr : list StoreOp) (p : CreateUserRequest.t) (u : doc) (s : string) (st1 : State) :
  wf_db d → unique_ids d →
  create_user p (mkState (Some d) env tr) = (Return (Some u), st1) →
  u !! "_id" = Some (VStr s) →
  (get_user s st1).1 = Return (Some u).
Proof.
  intros Hwf Huniq Hrun Hs.
  destruct (head (filter (λ x, matches [("username", VStr (CreateUserRequest.username p))] x = true)
                    (collection d "user"))) as [e|] eqn:Hhead.
  - rewrite (create_user_existing d env tr p e Hhead) in Hrun.
    injection Hrun as <- <-.
    rewrite lookup_insert_eq in Hs. injection Hs as <-.
    apply head_Some_elem_of, list_elem_of_filter in Hhead as [_ Hin].
    destruct Hwf as [Hroom Hids]. destruct (Hids _ _ Hin) as (i & Hi & Hlt).
    assert (Hget : doc_get e "_id" = VOid (Oid i)) by (unfold doc_get; by rewrite Hi).
    rewrite Hget. cbn [py_str].
    destruct (head (filter (λ x, matches [("_id", VOid (Oid i))] x = true)
                      (collection d "user"))) as [y|] eqn:Hy.
    + erewrite get_user_found; [|apply ObjectId_of_str_str; lia|exact Hy].
      apply head_Some_elem_of, list_elem_of_filter in Hy as [Hm Hyin].
      apply matches_singleton in Hm.
      assert (y = e) as -> by (apply (Huniq "user"); [done..|congruence]).
      cbn [fst]. by rewrite Hget.
    + apply head_None_nil in Hy.
      assert (Hin' : e ∈ filter (λ x, matches [("_id", VOid (Oid i))] x = true)
                         (collection d "user")).
      { apply list_elem_of_filter. split; [by apply matches_singleton|done]. }
      rewrite Hy in Hin'. by apply elem_of_nil in Hin'.
  - rewrite (create_user_new d env tr p Hwf Hhead) in Hrun.
    injection Hrun as <- <-.
    rewrite lookup_insert_eq in Hs. injection Hs as <-.
    set (nd := <["_id" := VOid (Oid (next_oid d))]> (CreateUserRequest.model_dump p)).
    assert (Hget : ∀ (m : doc) v, doc_get (<["_id" := v]> m) "_id" = v).
    { intros m v. unfold doc_get. by rewrite lookup_insert_eq. }
    assert (Hnd : head (filter (λ x, matches [("_id", VOid (Oid (next_oid d)))] x = true)
                          (collection (inserted "user" (CreateUserRequest.model_dump p) d)
                             "user")) = Some nd).
    { rewrite collection_inserted, filter_app, filter_fresh_id by done.
      rewrite filter_one; [done|]. by apply matches_singleton. }
    rewrite (get_user_found _ _ nd _ _ _ (ObjectId_of_str_str _ (proj1 Hwf)) Hnd).
    cbn [fst]. unfold nd. rewrite Hget. cbn [py_str]. by rewrite insert_insert_eq.
Qed.

Lemma create_user_then_get_user_witness :
  wf_db one_user_db ∧ unique_ids one_user_db
  ∧ ∃ (u : doc) (st1 : State),
      create_user (CreateUserRequest.mk "Ann" (Some "http://example.org/a.png"))
        (mkState (Some one_user_db) ∅ [])
      = (Return (Some u), st1)
      ∧ u !! "_id" = Some (VStr "000000000000000000000000")
      ∧ (get_user "000000000000000000000000" st1).1 = Return (Some u).
Proof.
  split; [exact one_user_db_wf|]. split; [exact one_user_db_unique|].
  eexists _, _.
  assert (Hc : create_user (CreateUserRequest.mk "Ann" (Some "http://example.org/a.png"))
                 (mkState (Some one_user_db) ∅ [])
               = (Return (Some {[ "_id" := VStr "000000000000000000000000";
                                  "username" := VStr "Ann"; "avatar_url" := VNone ]}),
                  mkState (Some one_user_db) ∅ [OpFindOne "user"])).
  { vm_compute. reflexivity. }
  split; [exact Hc|]. split; [reflexivity|].
  apply (create_user_then_get_user one_user_db ∅ [] _ _ _ _
           one_user_db_wf one_user_db_unique Hc). reflexivity.
Defined.

(** ** Routes that write *)

Lemma elem_of_collection_inserted c c' data d (x : doc) :
  x ∈ collection (inserted c data d) c' →
  x ∈ collection d c' ∨ (c' = c ∧ x = <["_id" := VOid (Oid (next_oid d))]> data).
Proof.
  destruct (decide (c = c')) as [<-|Hc].
  - rewrite collection_inserted, elem_of_app, list_elem_of_singleton.
    intros [Hx | ->]; [by left|by right].
  - rewrite collection_inserted_ne by done. by left.
Qed.

Lemma inserted_wf c data d :
  wf_db d → (next_oid d + 1 < 2 ^ 96)%N → wf_db (inserted c data d).
Proof.
  intros [_ Hids] Hroom. split; [done|].
  intros c' x Hx. apply elem_of_collection_inserted in Hx as [Hx|[_ ->]].
  - destruct (Hids c' x Hx) as (i & Hi & Hlt). exists i. split; [done|]. simpl. lia.
  - exists (next_oid d). split; [apply lookup_insert_eq|simpl; lia].
Qed.

Lemma inserted_unique c data d :
  wf_db d → unique_ids d → unique_ids (inserted c data d).
Proof.
  intros [Hroom Hids] Huniq c' x y Hx Hy Heq.
  assert (Hold : ∀ z : doc, z ∈ collection d c' → doc_get z "_id" ≠ VOid (Oid (next_oid d))).
  { intros z Hz Hget. destruct (Hids c' z Hz) as (i & Hi & Hlt).
    unfold doc_get in Hget. rewrite Hi in Hget.
    change (VOid (Oid i) = VOid (Oid (next_oid d))) in Hget.
    apply VOid_Oid_inj in Hget; lia. }
  assert (Hnew : doc_get (<["_id" := VOid (Oid (next_oid d))]> data) "_id"
                 = VOid (Oid (next_oid d))).
  { unfold doc_get. by rewrite lookup_insert_eq. }
  apply elem_of_collection_inserted in Hx as [Hx|[_ ->]];
    apply elem_of_collection_inserted in Hy as [Hy|[_ ->]].
  - by apply (Huniq c').
  - rewrite Hnew in Heq. by destruct (Hold x Hx).
  - rewrite Hnew in Heq. by destruct (Hold y Hy).
  - done.
Qed.

Lemma insert_all_inv c (l : list doc) : ∀ d,
  wf_db d → unique_ids d → (next_oid d + N.of_nat (length l) < 2 ^ 96)%N →
  wf_db (insert_all c l d) ∧ unique_ids (insert_all c l d).
Proof.
  induction l as [|s rest IH]; intros d Hwf Huniq Hroom; [done|].
  cbn [insert_all]. cbn [length] in Hroom. apply IH.
  - apply inserted_wf; [done|lia].
  - by apply inserted_unique.
  - simpl. lia.
Qed.

Lemma collection_insert_all_ne c c' (l : list doc) : ∀ d,
  c ≠ c' → collection (insert_all c l d) c' = collection d c'.
Proof.
  induction l as [|s rest IH]; intros d Hc; [done|].
  cbn [insert_all]. rewrite IH by done. by apply collection_inserted_ne.
Qed.

(** The database a route can leave behind: the one it found, or that one
    after the documents of [l] were inserted into [c]. *)
Lemma seed_games_db (d : Database) env tr :
  db (seed_games (mkState (Some d) env tr)).2 = Some d
  ∨ db (seed_games (mkState (Some d) env tr)).2 = Some (insert_all "game" samples d).
Proof.
  unfold seed_games. run. rewrite count_documents_run. cbn beta iota.
  destruct (0 <? _)%Z; [by left|].
  rewrite seed_loop_run by apply samples_encodable. by right.
Qed.

Lemma create_user_db (d : Database) env tr (p : CreateUserRequest.t) :
  db (create_user p (mkState (Some d) env tr)).2 = Some d
  ∨ db (create_user p (mkState (Some d) env tr)).2
    = Some (inserted "user" (CreateUserRequest.model_dump p) d).
Proof.
  unfold create_user. run. rewrite find_one_run. cbn beta iota.
  destruct (truthy _); [by left|].
  rewrite create_document_run by apply user_dump_encodable. cbn beta iota.
  unfold ObjectId_new. destruct (ObjectId_of_str _); run; [|by right].
  rewrite find_one_run. by right.
Qed.

Lemma submit_score_db (d : Database) env tr g (p : SubmitScoreRequest.t) :
  db (submit_score g p (mkState (Some d) env tr)).2 = Some d
  ∨ ((0 ≤ SubmitScoreRequest.score p)%Z
     ∧ db (submit_score g p (mkState (Some d) env tr)).2
       = Some (inserted "leaderboardentry"
                 {[ "game_id" := VStr g;
                    "user_id" := VStr (SubmitScoreRequest.user_id p);
                    "username" := VStr (SubmitScoreRequest.username p);
                    "score" := VInt (SubmitScoreRequest.score p) ]} d)).
Proof.
  unfold submit_score. run.
  destruct (Z.ltb_spec (SubmitScoreRequest.score p) 0) as [H|H]; [by left|]. run.
  destruct (encode_error {[ "game_id" := VStr g;
                            "user_id" := VStr (SubmitScoreRequest.user_id p);
                            "username" := VStr (SubmitScoreRequest.username p);
                            "score" := VInt (SubmitScoreRequest.score p) ]})
    as [e|] eqn:He.
  - rewrite (create_document_refused _ _ _ _ _ e He). by left.
  - rewrite create_document_run by exact He. right. split; [exact H|reflexivity].
Qed.

Lemma create_game_db (d : Database) env tr (g : Game.t) :
  db (create_game g (mkState (Some d) env tr)).2 = Some d
  ∨ db (create_game g (mkState (Some d) env tr)).2
    = Some (inserted "game" (Game.model_dump g) d).
Proof.
  unfold create_game. run.
  destruct (encode_error (Game.model_dump g)) as [e|] eqn:He.
  - rewrite (create_document_refused _ _ _ _ _ e He). by left.
  - rewrite create_document_run by exact He. right. reflexivity.
Qed.

(** X7. The writing routes keep the identifiers of the store in order:
    if every stored document carries a store-generated identifier, no two
    documents of a collection share one and the supply has room for four
    more, the same holds of the database that [create_game], [create_user],
    [submit_score] or [seed_games] leaves behind. *)
Theorem write_routes_keep_ids (d : Database) (env : gmap string string)
    (tr : list StoreOp) :
  wf_db d → unique_ids d → (next_oid d + 4 < 2 ^ 96)%N →
  let st := mkState (Some d) env tr in
  let kept (st' : State) := ∃ d', db st' = Some d' ∧ wf_db d' ∧ unique_ids d' in
  (∀ game, kept (create_game game st).2)
  ∧ (∀ payload, kept (create_user payload st).2)
  ∧ (∀ game_id payload, kept (submit_score game_id payload st).2)
  ∧ kept (seed_games st).2.
Proof.
  intros Hwf Huniq Hroom st kept. subst st kept. cbn beta.
  assert (Hins : ∀ c data, wf_db (inserted c data d) ∧ unique_ids (inserted c data d)).
  { intros c data. split; [apply inserted_wf; [done|lia]|by apply inserted_unique]. }
  split; [|split; [|split]].
  - intros g. destruct (create_game_db d env tr g) as [-> | ->]; eauto.
  - intros p. destruct (create_user_db d env tr p) as [-> | ->]; eauto.
  - intros g p. destruct (submit_score_db d env tr g p) as [-> | [_ ->]]; eauto.
  - destruct (seed_games_db d env tr) as [-> | ->]; [eauto|].
    eexists. split; [done|]. by apply insert_all_inv.
Qed.

Lemma write_routes_keep_ids_witness :
  wf_db one_user_db ∧ unique_ids one_user_db ∧ (next_oid one_user_db + 4 < 2 ^ 96)%N
  ∧ ∃ d', db (seed_games (mkState (Some one_user_db) ∅ [])).2 = Some d'
          ∧ wf_db d' ∧ unique_ids d'.
Proof.
  split; [exact one_user_db_wf|]. split; [exact one_user_db_unique|].
  split; [reflexivity|].
  apply (write_routes_keep_ids one_user_db ∅ [] one_user_db_wf one_user_db_unique).
  reflexivity.
Defined.

(** X8. Each writing route writes to its own collection only: whatever
    the state and the arguments, [create_game] and [seed_games] leave every
    collection but [game] as it was, and [create_user] every collection but
    [user]. *)
Theorem write_routes_frame (st : State) (c : string) :
  (c ≠ "game" → ∀ game, stored (create_game game st).2 c = stored st c)
  ∧ (c ≠ "game" → stored (seed_games st).2 c = stored st c)
  ∧ (c ≠ "user" → ∀ payload, stored (create_user payload st).2 c = stored st c).
Proof.
  destruct st as [[d|] env tr]; [|done].
  unfold stored. split; [|split]; intros Hc.
  - intros g. destruct (create_game_db d env tr g) as [-> | ->]; cbn [from_option]; [done|].
    by apply collection_inserted_ne.
  - destruct (seed_games_db d env tr) as [-> | ->]; cbn [from_option]; [done|].
    by apply collection_insert_all_ne.
  - intros p. destruct (create_user_db d env tr p) as [-> | ->]; cbn [from_option]; [done|].
    by apply collection_inserted_ne.
Qed.

Lemma write_routes_frame_witness :
  "user" ≠ "game"
  ∧ stored (seed_games (mkState (Some one_user_db) ∅ [])).2 "user"
    = stored (mkState (Some one_user_db) ∅ []) "user".
Proof.
  split; [discriminate|].
  apply (write_routes_frame (mkState (Some one_user_db) ∅ []) "user"). discriminate.
Defined.

(** ** Games: creating, then listing *)

Lemma list_games_run (category : option string) d env tr :
  list_games category (mkState (Some d) env tr)
  = (Return (map (λ x, serialize_doc (Some x))
               (filter (λ x, matches (if str_truthy category
                                      then [("category", opt_str_value category)]
                                      else []) x = true)
                  (collection d "game"))),
     mkState (Some d) env (tr ++ [OpFind "game"])).
Proof. unfold list_games, get_documents. run. by rewrite find_run. Qed.

Lemma str_truthy_Some (c : string) : c ≠ "" → str_truthy (Some c) = true.
Proof. by destruct c. Qed.

Lemma elem_of_map_serialize (x : doc) (l : list doc) :
  x ∈ l → serialize_doc (Some x) ∈ map (λ y, serialize_doc (Some y)) l.
Proof.
  intros Hx. rewrite map_fmap.
  by apply (list_elem_of_fmap_2 (λ y : doc, serialize_doc (Some y))).
Qed.






(** X10. The category filter is exact: with the handle present and a
    non-empty category, every listed game carries that category, every
    stored game of that category is listed, and no more documents are
    listed than are stored. *)
Theorem list_games_by_category (d : Database) (env : gmap string string)
    (tr : list StoreOp) (c : string) :
  c ≠ "" →
  ∃ l : list (option doc),
    (list_games (Some c) (mkState (Some d) env tr)).1 = Return l
    ∧ Forall (λ e, ∃ m : doc, e = Some m ∧ m !! "category" = Some (VStr c)) l
    ∧ (∀ x : doc, x ∈ collection d "game" → x !! "category" = Some (VStr c) →
         serialize_doc (Some x) ∈ l)
    ∧ (length l ≤ length (collection d "game"))%nat.
Proof.
  intros Hc. eexists. split; [by rewrite list_games_run|].
  rewrite str_truthy_Some by done. cbn [opt_str_value].
  split; [|split].
  - rewrite map_fmap. apply Forall_fmap, Forall_forall. intros x Hx. cbn.
    apply list_elem_of_filter in Hx as [Hm _]. apply matches_singleton in Hm.
    eexists. split; [apply serialize_doc_Some; by eapply doc_get_nonempty|].
    rewrite lookup_insert_ne by done. by apply doc_get_Some.
  - intros x Hx Hcat. apply elem_of_map_serialize, list_elem_of_filter.
    split; [|done]. apply matches_singleton. unfold doc_get. by rewrite Hcat.
  - rewrite length_map. apply length_filter.
Qed.

Lemma list_games_by_category_witness :
  "Action" ≠ ""
  ∧ ∃ l : list (option doc),
      (list_games (Some "Action") (mkState (Some two_game_db) ∅ [])).1 = Return l
      ∧ Forall (λ e, ∃ m : doc, e = Some m ∧ m !! "category" = Some (VStr "Action")) l
      ∧ (length l ≤ 2)%nat.
Proof.
  split; [discriminate|].
  destruct (list_games_by_category two_game_db ∅ [] "Action") as (l & Hrun & Hall & _ & Hlen);
    [discriminate|].
  exists l. split; [exact Hrun|]. split; [exact Hall|exact Hlen].
Defined.

(** ** Identifiers handed to clients *)

Lemma serialize_valid_id (x : doc) (n : N) :
  x !! "_id" = Some (VOid (Oid n)) → has_valid_id (serialize_doc (Some x)).
Proof.
  intros Hid. eexists _, _. split; [|split].
  - apply serialize_doc_Some. intros ->. by rewrite lookup_empty in Hid.
  - apply lookup_insert_eq.
  - unfold doc_get. rewrite Hid. apply ObjectId_str_valid.
Qed.

Lemma get_leaderboard_run (game_id : string) (limit : Z) d env tr :
  get_leaderboard game_id limit (mkState (Some d) env tr)
  = (Return (map (λ e, serialize_doc (Some e))
               (cursor_limit limit
                  (cursor_sort "score" (-1)
                     (filter (λ x, matches [("game_id", VStr game_id)] x = true)
                        (collection d "leaderboardentry"))))),
     mkState (Some d) env (tr ++ [OpFind "leaderboardentry"])).
Proof. unfold get_leaderboard. run. by rewrite find_run. Qed.

Lemma leaderboard_entry_stored (game_id : string) (limit : Z) (d : Database) (x : doc) :
  x ∈ cursor_limit limit
        (cursor_sort "score" (-1)
           (filter (λ x, matches [("game_id", VStr game_id)] x = true)
              (collection d "leaderboardentry"))) →
  x ∈ collection d "leaderboardentry" ∧ doc_get x "game_id" = VStr game_id.
Proof.
  intros Hx. apply cursor_limit_subseteq in Hx. rewrite cursor_sort_perm in Hx.
  apply list_elem_of_filter in Hx as [Hm Hx]. by apply matches_singleton in Hm.
Qed.

(** X11. With store-generated identifiers, every document that
    [list_games] or [get_leaderboard] returns carries under ["_id"] a string
    that is a well-formed identifier, so it can be handed back to the
    routes that parse one. *)
Theorem listed_ids_are_valid (d : Database) (env : gmap string string)
    (tr : list StoreOp) :
  wf_db d →
  (∀ category l, (list_games category (mkState (Some d) env tr)).1 = Return l →
     Forall has_valid_id l)
  ∧ (∀ game_id limit l,
       (get_leaderboard game_id limit (mkState (Some d) env tr)).1 = Return l →
       Forall has_valid_id l).
Proof.
  intros [_ Hids]. split.
  - intros category l. rewrite list_games_run. intros [= <-].
    rewrite map_fmap. apply Forall_fmap, Forall_forall. intros x Hx. cbn.
    apply list_elem_of_filter in Hx as [_ Hx].
    destruct (Hids _ _ Hx) as (i & Hi & _). by eapply serialize_valid_id.
  - intros g limit l. rewrite get_leaderboard_run. intros [= <-].
    rewrite map_fmap. apply Forall_fmap, Forall_forall. intros x Hx. cbn.
    apply leaderboard_entry_stored in Hx as [Hx _].
    destruct (Hids _ _ Hx) as (i & Hi & _). by eapply serialize_valid_id.
Qed.

Lemma played_db_wf : wf_db played_db.
Proof.
  split; [reflexivity|]. intros c x Hx.
  unfold collection, played_db in Hx. cbn [collections] in Hx.
  destruct (decide (c = "game")) as [->|Hgame].
  - rewrite lookup_insert_eq in Hx. cbn [default from_option id] in Hx.
    apply elem_of_cons in Hx as [->|Hx]; [|apply list_elem_of_singleton in Hx as ->].
    + exists 0%N. split; [apply lookup_insert_eq|reflexivity].
    + exists 1%N. split; [apply lookup_insert_eq|reflexivity].
  - rewrite lookup_insert_ne in Hx by done.
    destruct (decide (c = "leaderboardentry")) as [->|Hentry].
    + rewrite lookup_singleton_eq in Hx. cbn [default from_option id] in Hx.
      apply elem_of_cons in Hx as [->|Hx]; [|apply list_elem_of_singleton in Hx as ->].
      * exists 2%N. split; [apply lookup_insert_eq|reflexivity].
      * exists 3%N. split; [apply lookup_insert_eq|reflexivity].
    + rewrite lookup_singleton_ne in Hx by done. by apply elem_of_nil in Hx.
Qed.

Lemma listed_ids_are_valid_witness :
  wf_db played_db
  ∧ ∃ l1 l2 : list (option doc),
      (list_games None (mkState (Some played_db) ∅ [])).1 = Return l1
      ∧ length l1 = 2 ∧ Forall has_valid_id l1
      ∧ (get_leaderboard "g" 10 (mkState (Some played_db) ∅ [])).1 = Return l2
      ∧ length l2 = 2 ∧ Forall has_valid_id l2.
Proof.
  split; [exact played_db_wf|].
  destruct (listed_ids_are_valid played_db ∅ [] played_db_wf) as [Hgames Hentries].
  eexists _, _. split; [reflexivity|]. split; [vm_compute; reflexivity|].
  split; [by apply (Hgames None)|]. split; [reflexivity|].
  split; [vm_compute; reflexivity|]. by apply (Hentries "g" 10%Z).
Defined.

(** ** Leaderboards: submitting, then reading *)




(** X13. [submit_score] keeps the leaderboard within its schema: if every
    stored entry has the three string fields and an integer score of 0 or
    more, so has every entry of the database the call leaves behind,
    whether the score was accepted or refused. *)
Theorem submit_score_keeps_entries_valid (d : Database) (env : gmap string string)
    (tr : list StoreOp) (game_id : string) (payload : SubmitScoreRequest.t) :
  entries_valid d →
  ∃ d', db (submit_score game_id payload (mkState (Some d) env tr)).2 = Some d'
        ∧ entries_valid d'.
Proof.
  intros Hvalid.
  destruct (submit_score_db d env tr game_id payload) as [-> | [Hpos ->]];
    [by eexists|].
  eexists. split; [done|].
  intros x Hx. apply elem_of_collection_inserted in Hx as [Hx|[_ ->]]; [by apply Hvalid|].
  repeat split; eexists; rewrite ?lookup_insert_ne by done;
    [apply lookup_insert_eq..|split; [apply lookup_singleton_eq|exact Hpos]].
Qed.

Lemma submit_score_keeps_entries_valid_witness :
  entries_valid (mkDatabase ∅ 0)
  ∧ ∃ d', db (submit_score "g" (SubmitScoreRequest.mk "u1" "Ann" 42) empty_state).2 = Some d'
          ∧ entries_valid d'.
Proof.
  assert (Hempty : entries_valid (mkDatabase ∅ 0)).
  { intros x Hx. unfold collection in Hx. simpl in Hx.
    rewrite lookup_empty in Hx. by apply elem_of_nil in Hx. }
  split; [exact Hempty|].
  exact (submit_score_keeps_entries_valid (mkDatabase ∅ 0) ∅ [] "g"
           (SubmitScoreRequest.mk "u1" "Ann" 42) Hempty).
Defined.




(** ** The diagnostic route, case by case *)

(** X15. What [test_database] reports.  With the handle absent nothing is
    sent to the store and the response says so.  With the handle present the
    store is probed once, and whatever the probe does the response names at
    most 10 collections and says of [DATABASE_URL] only whether it is set,
    never its value; when the probe succeeds the collections reported are
    the first 10 the store names. *)
Theorem test_database_report (env : gmap string string) (tr : list StoreOp) :
  (∀ fault,
     test_database fault (mkState None env tr)
     = (Return (mkTestResponse "✅ Running" "⚠️  Available but not initialized"
                  None None "Not Connected" []),
        mkState None env tr))
  ∧ (∀ fault d,
       ∃ r, test_database fault (mkState (Some d) env tr)
            = (Return r, mkState (Some d) env (tr ++ [OpListCollectionNames]))
            ∧ backend r = "✅ Running"
            ∧ connection_status r = "Connected"
            ∧ (database_url r = Some "✅ Set" ∨ database_url r = Some "❌ Not Set")
            ∧ (length (collections_seen r) ≤ 10)%nat)
  ∧ (∀ d,
       ∃ r, (test_database None (mkState (Some d) env tr)).1 = Return r
            ∧ database r = "✅ Connected & Working"
            ∧ collections_seen r = take 10 (map_to_list (collections d)).*1).
Proof.
  split; [reflexivity|]. split.
  - intros [e|] d; eexists; (split; [reflexivity|]); cbn;
      (split; [reflexivity|]); (split; [reflexivity|]);
      (split; [destruct (str_truthy (env !! "DATABASE_URL")); auto|]).
    + lia.
    + rewrite length_take. lia.
  - intros d. eexists. split; [reflexivity|]. split; reflexivity.
Qed.

(** ** The seeded games and the schema *)

(** X16. The seed data is within the [Game] schema: each of the four
    sample documents is the dump of a game whose title, description,
    thumbnail and play count satisfy the constraints of [schemas.Game]. *)
Theorem samples_satisfy_Game_schema (is_http_url : string → bool) :
  Forall (λ s, ∃ g, Game_valid is_http_url g = true ∧ Game.model_dump g = s) samples.
Proof.
  unfold samples. repeat apply Forall_cons_2; [..|apply Forall_nil_2].
  - by exists (Game.mk "Neon Blocks"
                 "Stack and align glowing blocks in this chill puzzle." Puzzle None 0).
  - by exists (Game.mk "Cyber Runner"
                 "Dash through a synth city, dodge obstacles, collect cores." Adventure None 0).
  - by exists (Game.mk "Pulse Shooter"
                 "Arcade action with rhythmic enemy waves and power-ups." Action None 0).
  - by exists (Game.mk "ABC Quest"
                 "Learn letters and sounds with friendly characters." KidsLearning None 0).
Qed.
